(** * pyscript-to-package: a shallow embedding of [main.py]

    The script migrates standalone Python scripts into uv-managed packages
    and optionally registers each one in an umbrella package.  This file
    embeds [src/pyscript_to_package/main.py] function by function and proves
    the properties the specification states about it.

    Layout:
    - [PyStr]: the few [str] methods the script calls;
    - [Pathlib]: the part of [pathlib.PurePosixPath] the script uses;
    - [Toml]: TOML documents and the item protocol ([get], [in], [[k]]);
    - the world (file system and effect log) and the effect monad;
    - the functions of [main.py], in source order;
    - the theorems. *)

From Stdlib Require Import String Ascii ZArith List Bool Lia.
From stdpp Require Import base option list gmap strings fin_maps.

Local Open Scope string_scope.

(** ** Python [str] methods *)

Module PyStr.

(** The newline character. *)
Definition nl : string := String (ascii_of_nat 10) EmptyString.

(** [needle in hay] on two strings: substring test. *)
Fixpoint contains (needle hay : string) : bool :=
  String.prefix needle hay ||
  match hay with
  | EmptyString => false
  | String _ hay' => contains needle hay'
  end.

(** [s.replace(old, new)] for a non-empty [old]: scan left to right,
    replace each non-overlapping occurrence.  [skip] counts the characters
    of a matched occurrence that remain to be dropped. *)
Fixpoint replace_from (old new : string) (skip : nat) (s : string) : string :=
  match s with
  | EmptyString => EmptyString
  | String c s' =>
      match skip with
      | S k => replace_from old new k s'
      | O =>
          if String.prefix old s
          then new ++ replace_from old new (String.length old - 1) s'
          else String c (replace_from old new 0 s')
      end
  end.

(** With an empty [old], Python inserts [new] before every character and at
    the end. *)
Fixpoint intersperse (new s : string) : string :=
  match s with
  | EmptyString => new
  | String c s' => new ++ String c (intersperse new s')
  end.

Definition replace (old new s : string) : string :=
  match old with
  | EmptyString => intersperse new s
  | String _ _ => replace_from old new 0 s
  end.

(** The characters [str.splitlines] treats as line boundaries, among the
    code points below 256: LF, VT, FF, CR, FS, GS, RS and NEL. *)
Definition is_linebreak (c : ascii) : bool :=
  let n := nat_of_ascii c in
  (n =? 10)%nat || (n =? 11)%nat || (n =? 12)%nat || (n =? 13)%nat ||
  (n =? 28)%nat || (n =? 29)%nat || (n =? 30)%nat || (n =? 133)%nat.

Definition is_cr (c : ascii) : bool := (nat_of_ascii c =? 13)%nat.
Definition is_lf (c : ascii) : bool := (nat_of_ascii c =? 10)%nat.

(** [splitlines_from cur s]: [cur] is the line read so far.  A CR LF pair
    is one boundary; a final line without boundary is kept, an empty final
    line is not. *)
Fixpoint splitlines_from (cur : string) (s : string) : list string :=
  match s with
  | EmptyString =>
      match cur with
      | EmptyString => []
      | _ => [cur]
      end
  | String c s' =>
      if is_linebreak c then
        match s' with
        | String c' s'' =>
            if is_cr c && is_lf c'
            then cur :: splitlines_from EmptyString s''
            else cur :: splitlines_from EmptyString s'
        | EmptyString => [cur]
        end
      else splitlines_from (cur ++ String c EmptyString) s'
  end.

Definition splitlines (s : string) : list string :=
  splitlines_from EmptyString s.

(** [sep.join(l)]. *)
Definition join (sep : string) (l : list string) : string :=
  String.concat sep l.

(** [s.rfind(c)] for a one-character [c]: the last index, if any. *)
Fixpoint rfind (c : ascii) (s : string) : option nat :=
  match s with
  | EmptyString => None
  | String a s' =>
      match rfind c s' with
      | Some i => Some (S i)
      | None => if Ascii.eqb a c then Some 0%nat else None
      end
  end.

(** [s.split(c)] for a one-character separator. *)
Fixpoint split (sep : ascii) (s : string) : list string :=
  match s with
  | EmptyString => [EmptyString]
  | String c s' =>
      if Ascii.eqb c sep then EmptyString :: split sep s'
      else
        match split sep s' with
        | h :: t => String c h :: t
        | [] => [String c EmptyString]
        end
  end.

End PyStr.

(** ** [pathlib] (POSIX flavour, as of Python 3.12) *)

Module Pathlib.

(** A pure path: whether it starts at the root, and its components.
    Parsing drops empty components and ["."]; [".."] is kept, as pathlib
    keeps it. *)
Record PurePath := MkPath { anchored : bool; parts : list string }.

Definition keep_part (s : string) : bool :=
  negb (String.eqb s "") && negb (String.eqb s ".").

Definition parse_parts (s : string) : list string :=
  List.filter keep_part (PyStr.split "/" s).

(** [pathlib.Path(s)]. *)
Definition Path (s : string) : PurePath :=
  MkPath (String.prefix "/" s) (parse_parts s).

(** [p / s]: an absolute right operand replaces the left one. *)
Definition joinpath (p : PurePath) (s : string) : PurePath :=
  if String.prefix "/" s then Path s
  else MkPath (anchored p) (parts p ++ parse_parts s).

(** [p.name]: the final component, or the empty string. *)
Definition name (p : PurePath) : string := List.last (parts p) "".

(** [p.stem]: the name without its last suffix.  A leading dot or a
    trailing dot does not start a suffix. *)
Definition stem (p : PurePath) : string :=
  let n := name p in
  match PyStr.rfind "." n with
  | Some i =>
      if (0 <? i)%nat && (i <? String.length n - 1)%nat
      then String.substring 0 i n
      else n
  | None => n
  end.

(** [str(p)]. *)
Definition to_str (p : PurePath) : string :=
  if anchored p then "/" ++ PyStr.join "/" (parts p)
  else
    match parts p with
    | [] => "."
    | _ => PyStr.join "/" (parts p)
    end.

End Pathlib.

Import Pathlib.

Notation "p // s" := (joinpath p s) (at level 40, left associativity).

(** ** Name derivation ([main.py] lines 16-22) *)

(** [get_pkg_name]: Python modules must use underscores. *)
Definition get_pkg_name (script_path : PurePath) : string :=
  PyStr.replace "-" "_" (stem script_path).

(** [get_bin_name]: the command name matches the file name exactly. *)
Definition get_bin_name (script_path : PurePath) : string :=
  stem script_path.

(** ** Outcomes of Python evaluation *)

Abbreviation fspath := (list string).

Inductive oserror :=
  | FileNotFound
  | IsADirectory
  | NotADirectory
  | FileExists.

(** The exceptions the script can raise. *)
Inductive exn :=
  | CalledProcessError (argv : list string) (code : Z)
  | OSError (kind : oserror) (p : fspath)
  | UnsupportedOperation
  | KeyError (k : string)
  | TypeError
  | AttributeError
  | ParseError
  | FormatError (e : string).

Inductive result (A : Type) :=
  | Ok (a : A)
  | Raise (e : exn).
Arguments Ok {A} a.
Arguments Raise {A} e.

Definition rbind {A B} (r : result A) (f : A -> result B) : result B :=
  match r with
  | Ok a => f a
  | Raise e => Raise e
  end.

Definition rmap {A B} (f : A -> B) (r : result A) : result B :=
  rbind r (fun a => Ok (f a)).

Notation "'let?' x := r 'in' k" := (rbind r (fun x => k))
  (at level 10, x name, r at level 100, k at level 200).

(** ** TOML documents as tomlkit presents them *)

Module Toml.

(** Items.  Tables are finite maps from keys to items; scalars other than
    strings (floats, dates) behave like [TInt] for every operation used
    here. *)
#[warnings="-register-all"]
Inductive toml :=
  | TStr (s : string)
  | TInt (z : Z)
  | TBool (b : bool)
  | TArr (l : list toml)
  | TTab (m : gmap string toml).

Abbreviation doc := (gmap string toml).

(** [x == entry] for a Python [str] on the right: only string items can be
    equal to it. *)
Definition eq_str (entry : string) (x : toml) : bool :=
  match x with
  | TStr s => String.eqb s entry
  | _ => false
  end.

(** [entry in v]. *)
Definition py_in (entry : string) (v : toml) : result bool :=
  match v with
  | TArr l => Ok (existsb (eq_str entry) l)
  | TStr s => Ok (PyStr.contains entry s)
  | TTab m => Ok (bool_decide (is_Some (m !! entry)))
  | TInt _ | TBool _ => Raise TypeError
  end.

(** [v.get(k, default)]: only tables have the method. *)
Definition py_get (v : toml) (k : string) (dflt : toml) : result toml :=
  match v with
  | TTab m => Ok (default dflt (m !! k))
  | _ => Raise AttributeError
  end.

(** [v[k]] with a string key. *)
Definition getitem (v : toml) (k : string) : result toml :=
  match v with
  | TTab m =>
      match m !! k with
      | Some x => Ok x
      | None => Raise (KeyError k)
      end
  | _ => Raise TypeError
  end.

(** [v[k] = x] with a string key; the result is the container after the
    assignment. *)
Definition setitem (v : toml) (k : string) (x : toml) : result toml :=
  match v with
  | TTab m => Ok (TTab (<[k := x]> m))
  | _ => Raise TypeError
  end.

(** [v.append(entry)]. *)
Definition py_append (v : toml) (entry : string) : result toml :=
  match v with
  | TArr l => Ok (TArr (l ++ [TStr entry]))
  | TTab _ => Raise TypeError
  | _ => Raise AttributeError
  end.

End Toml.

Import Toml.

(** ** The world: a file system and a log of effects *)

(** A file holds text, or a TOML document.  tomlkit is style preserving:
    [dumps (loads s) = s] and [loads (dumps d) = d].  A file that was
    written with [tomlkit.dumps d] is therefore kept as the document [d];
    the two conversions are only needed when a file of one kind is read as
    the other, and are taken from the host. *)
Inductive content :=
  | Text (s : string)
  | TomlDoc (d : doc).

Inductive node :=
  | Dir
  | File (c : content).

Abbreviation filesys := (gmap fspath node).

(** What the script does to its environment, newest first. *)
Inductive event :=
  | EEcho (s : string)
  | ERun (argv : list string) (dir : fspath) (code : Z)
  | EMkdir (p : fspath)
  | ETruncate (p : fspath)
  | EWrite (p : fspath) (c : content)
  | EUnlink (p : fspath).

Record world := World { fs : filesys; log : list event }.

(** What the script takes from its host: the working directory, the
    external tools ([uv], [git]) as a function from the command line, the
    directory it runs in and the file system to an exit status and a new
    file system, the TOML codec, and [str.format] on templates that use more
    than plain [{repo}] fields. *)
Record Host := MkHost {
  cwd : fspath;
  tool : list string -> fspath -> filesys -> Z * filesys;
  toml_loads : string -> option doc;
  toml_dumps : doc -> string;
  format_other : string -> string -> result string
}.

(** The root directory always exists. *)
Definition lookup_node (f : filesys) (p : fspath) : option node :=
  match p with
  | [] => Some Dir
  | _ => f !! p
  end.

Definition parent (p : fspath) : fspath := removelast p.

(** ** The effect monad *)

Definition M (A : Type) : Type := world -> result A * world.

Definition ret {A} (a : A) : M A := fun w => (Ok a, w).

Definition raise {A} (e : exn) : M A := fun w => (Raise e, w).

Definition bind {A B} (m : M A) (f : A -> M B) : M B :=
  fun w =>
    match m w with
    | (Ok a, w') => f a w'
    | (Raise e, w') => (Raise e, w')
    end.

Definition lift {A} (r : result A) : M A := fun w => (r, w).

Definition emit (e : event) (w : world) : world :=
  World (fs w) (e :: log w).

Definition set_node (p : fspath) (n : node) (w : world) : world :=
  World (<[p := n]> (fs w)) (log w).

Declare Scope eff_scope.
Delimit Scope eff_scope with eff.
Bind Scope eff_scope with M.

Notation "x <- m ;; k" := (bind m (fun x => k))
  (at level 20, m at level 99, k at level 200, only parsing) : eff_scope.
Notation "m ;; k" := (bind m (fun _ => k))
  (at level 100, k at level 200, only parsing, right associativity) : eff_scope.

Local Open Scope eff_scope.

(** [for x in l: body x]. *)
Fixpoint for_each {A} (l : list A) (body : A -> M unit) : M unit :=
  match l with
  | [] => ret tt
  | x :: l' => body x ;; for_each l' body
  end.

Inductive mode := ModeR | ModeW.

Record handle := Handle { h_path : fspath; h_mode : mode }.

Section Primitives.

Variable host : Host.

(** The file-system key of a path: relative paths start at the working
    directory.  Keys are compared as pathlib writes them; [".."] and
    symbolic links are not resolved. *)
Definition abspath (p : PurePath) : fspath :=
  if anchored p then parts p else (cwd host ++ parts p)%list.

(** [pathlib.Path.cwd()]. *)
Definition Path_cwd : PurePath := MkPath true (cwd host).

(** [click.echo(s)]. *)
Definition echo (s : string) : M unit :=
  fun w => (Ok tt, emit (EEcho s) w).

(** [p.exists()]. *)
Definition path_exists (p : PurePath) : M bool :=
  fun w => (Ok (bool_decide (is_Some (lookup_node (fs w) (abspath p)))), w).

(** [subprocess.run(argv, cwd=dir, check=True)]: a nonzero exit status
    raises [CalledProcessError]. *)
Definition subprocess_run (argv : list string) (dir : PurePath) : M unit :=
  fun w =>
    let '(code, f') := tool host argv (abspath dir) (fs w) in
    let w' := World f' (ERun argv (abspath dir) code :: log w) in
    if (code =? 0)%Z then (Ok tt, w')
    else (Raise (CalledProcessError argv code), w').

(** [p.mkdir(parents=True, exist_ok=True)], from the root down: a missing
    ancestor is created, an existing directory is accepted, a file in the
    way raises. *)
Fixpoint mkdirs (made todo : fspath) : M unit :=
  match todo with
  | [] => ret tt
  | c :: rest =>
      let q := (made ++ [c])%list in
      (fun w =>
         match lookup_node (fs w) q with
         | None => (Ok tt, emit (EMkdir q) (set_node q Dir w))
         | Some Dir => (Ok tt, w)
         | Some (File _) =>
             match rest with
             | [] => (Raise (OSError FileExists q), w)
             | _ => (Raise (OSError NotADirectory q), w)
             end
         end) ;;
      mkdirs q rest
  end.

Definition mkdir_parents (p : PurePath) : M unit :=
  mkdirs [] (abspath p).

(** [open(p, mode)].  Opening for writing creates or truncates the file;
    opening for reading needs the file to exist. *)
Definition open_ (p : PurePath) (md : mode) : M handle :=
  fun w =>
    let q := abspath p in
    match md with
    | ModeR =>
        match lookup_node (fs w) q with
        | None => (Raise (OSError FileNotFound q), w)
        | Some Dir => (Raise (OSError IsADirectory q), w)
        | Some (File _) => (Ok (Handle q ModeR), w)
        end
    | ModeW =>
        match lookup_node (fs w) q with
        | Some Dir => (Raise (OSError IsADirectory q), w)
        | _ =>
            match lookup_node (fs w) (parent q) with
            | None => (Raise (OSError FileNotFound q), w)
            | Some (File _) => (Raise (OSError NotADirectory q), w)
            | Some Dir =>
                (Ok (Handle q ModeW),
                 emit (ETruncate q) (set_node q (File (Text "")) w))
            end
        end
    end.

(** [f.write(c)], the only write to a handle before it is closed. *)
Definition fwrite (f : handle) (c : content) : M unit :=
  fun w =>
    match h_mode f with
    | ModeR => (Raise UnsupportedOperation, w)
    | ModeW =>
        (Ok tt, emit (EWrite (h_path f) c) (set_node (h_path f) (File c) w))
    end.

(** [f.read()]. *)
Definition fread (f : handle) : M string :=
  fun w =>
    match fs w !! h_path f with
    | Some (File (Text s)) => (Ok s, w)
    | Some (File (TomlDoc d)) => (Ok (toml_dumps host d), w)
    | Some Dir => (Raise (OSError IsADirectory (h_path f)), w)
    | None => (Raise (OSError FileNotFound (h_path f)), w)
    end.

(** [tomlkit.load(f)]. *)
Definition tomlkit_load (f : handle) : M doc :=
  fun w =>
    match fs w !! h_path f with
    | Some (File (TomlDoc d)) => (Ok d, w)
    | Some (File (Text s)) =>
        match toml_loads host s with
        | Some d => (Ok d, w)
        | None => (Raise ParseError, w)
        end
    | Some Dir => (Raise (OSError IsADirectory (h_path f)), w)
    | None => (Raise (OSError FileNotFound (h_path f)), w)
    end.

(** [p.read_text()]. *)
Definition read_text (p : PurePath) : M string :=
  f <- open_ p ModeR ;; fread f.

(** [p.write_text(s)]. *)
Definition write_text (p : PurePath) (s : string) : M unit :=
  f <- open_ p ModeW ;; fwrite f (Text s).

(** [p.unlink(missing_ok=True)]. *)
Definition unlink_missing_ok (p : PurePath) : M unit :=
  fun w =>
    let q := abspath p in
    match lookup_node (fs w) q with
    | None => (Ok tt, w)
    | Some Dir => (Raise (OSError IsADirectory q), w)
    | Some (File _) =>
        (Ok tt, emit (EUnlink q) (World (delete q (fs w)) (log w)))
    end.

End Primitives.

(** ** [str.format] with the single keyword argument [repo] *)

(** A template in the plain fragment is a sequence of literal characters
    (with [{{] and [}}] standing for one brace) and [{repo}] fields. *)
Inductive piece :=
  | PLit (c : ascii)
  | PRepo.

Definition is_brace (c : ascii) : bool :=
  Ascii.eqb c "{" || Ascii.eqb c "}".

(** [None] when the template leaves the plain fragment: a field with
    another name, a conversion, a format specification, an attribute or an
    index, or an unbalanced brace. *)
Fixpoint parse_template (pat : string) : option (list piece) :=
  match pat with
  | EmptyString => Some []
  | String c r =>
      if is_brace c then
        match r with
        | String c' r' =>
            if Ascii.eqb c c' then cons (PLit c) <$> parse_template r'
            else
              match r with
              | String a1 (String a2 (String a3 (String a4 (String a5 r5)))) =>
                  if Ascii.eqb c "{" && Ascii.eqb a1 "r" && Ascii.eqb a2 "e"
                     && Ascii.eqb a3 "p" && Ascii.eqb a4 "o" && Ascii.eqb a5 "}"
                  then cons PRepo <$> parse_template r5
                  else None
              | _ => None
              end
        | EmptyString => None
        end
      else cons (PLit c) <$> parse_template r
  end.

Fixpoint render (ps : list piece) (repo : string) : string :=
  match ps with
  | [] => ""
  | PLit c :: ps' => String c (render ps' repo)
  | PRepo :: ps' => repo ++ render ps' repo
  end.

(** [pat.format(repo=repo)]. *)
Definition str_format (host : Host) (pat repo : string) : result string :=
  match parse_template pat with
  | Some ps => Ok (render ps repo)
  | None => format_other host pat repo
  end.

(** ** The functions of [main.py] *)

Section Script.

Variable host : Host.

(** [setup_umbrella] (lines 24-33): initialise the umbrella package if its
    directory does not exist. *)
Definition setup_umbrella (path : string) : M PurePath :=
  let umbrella_dir := Path path in
  let pyproject_path := umbrella_dir // "pyproject.toml" in
  present <- path_exists host umbrella_dir ;;
  (if negb present then
     echo ("Initializing umbrella package at " ++ path ++ "...") ;;
     subprocess_run host ["uv"; "init"; "--lib"; to_str umbrella_dir] (Path_cwd host)
   else ret tt) ;;
  ret pyproject_path.

(** The composed dependency string, [f"{pkg_name} @ {git_url}"]. *)
Definition dep_entry (pkg_name git_url : string) : string :=
  pkg_name ++ " @ " ++ git_url.

(** The entry-point target, [f"{pkg_name}.main:main"]. *)
Definition entry_point (pkg_name : string) : string :=
  pkg_name ++ ".main:main".

(** Lines 40-45: add to the dependencies. *)
Definition add_dependency (data : doc) (pkg_name git_url : string)
  : result doc :=
  let? project0 := py_get (TTab data) "project" (TTab ∅) in
  let? deps := py_get project0 "dependencies" (TArr []) in
  let entry := dep_entry pkg_name git_url in
  let? present := py_in entry deps in
  if negb present then
    let? deps' := py_append deps entry in
    let? project := getitem (TTab data) "project" in
    let? project' := setitem project "dependencies" deps' in
    Ok (<["project" := project']> data)
  else Ok data.

(** Lines 48-52 (and 128-130): make sure [project.scripts] exists, then set
    the command. *)
Definition set_entry_point (data : doc) (pkg_name bin_name : string)
  : result doc :=
  let? project := getitem (TTab data) "project" in
  let? has_scripts := py_in "scripts" project in
  let? project1 :=
    (if negb has_scripts then setitem project "scripts" (TTab ∅)
     else Ok project) in
  let? scripts := getitem project1 "scripts" in
  let? scripts' := setitem scripts bin_name (TStr (entry_point pkg_name)) in
  let? project2 := setitem project1 "scripts" scripts' in
  Ok (<["project" := project2]> data).

(** The document [update_umbrella_deps_bin] writes back (lines 40-52). *)
Definition umbrella_edit (data : doc) (pkg_name bin_name git_url : string)
  : result doc :=
  let? data1 := add_dependency data pkg_name git_url in
  set_entry_point data1 pkg_name bin_name.

(** [update_umbrella_deps_bin] (lines 35-55): add the dependency and the
    entry point to the umbrella. *)
Definition update_umbrella_deps_bin (pyproject_path : PurePath)
    (pkg_name bin_name git_url : string) : M unit :=
  f <- open_ host pyproject_path ModeR ;;
  data <- tomlkit_load host f ;;
  data' <- lift (umbrella_edit data pkg_name bin_name git_url) ;;
  f <- open_ host pyproject_path ModeW ;;
  fwrite f (TomlDoc data').

(** [update_umbrella_deps] (lines 57-73): the variant that adds the
    dependency only; [migrate] does not call it. *)
Definition update_umbrella_deps (pyproject_path : PurePath)
    (pkg_name git_url : string) : M unit :=
  f <- open_ host pyproject_path ModeR ;;
  data <- tomlkit_load host f ;;
  project0 <- lift (py_get (TTab data) "project" (TTab ∅)) ;;
  deps <- lift (py_get project0 "dependencies" (TArr [])) ;;
  let entry := dep_entry pkg_name git_url in
  present <- lift (py_in entry deps) ;;
  if negb present then
    echo ("Adding " ++ pkg_name ++ " to umbrella dependencies...") ;;
    data' <- lift (add_dependency data pkg_name git_url) ;;
    f <- open_ host pyproject_path ModeW ;;
    fwrite f (TomlDoc data')
  else
    echo (pkg_name ++ " already registered in umbrella.").

(** The [readme] table of line 122. *)
Definition org_readme : toml :=
  TTab (<["file" := TStr "README.org"]>
        (<["content-type" := TStr "text/org"]> ∅)).

(** Lines 121-130: the document written back to the package's own
    [pyproject.toml]. *)
Definition local_edit (pp_data : doc) (pkg_name bin_name : string)
  : result doc :=
  let? project := getitem (TTab pp_data) "project" in
  let? project' := setitem project "readme" org_readme in
  set_entry_point (<["project" := project']> pp_data) pkg_name bin_name.

(** Line 107: wrap a script without [main] into one. *)
Definition wrap_main (content : string) : string :=
  let indented :=
    PyStr.join PyStr.nl (map (fun line => "    " ++ line)
                             (PyStr.splitlines content)) in
  "def main():" ++ PyStr.nl ++ indented ++ PyStr.nl ++ PyStr.nl ++
  "if __name__ == '__main__':" ++ PyStr.nl ++ "    main()".

(** Step 1 (lines 91-95): create the package directory. *)
Definition create_package (pkg_dir : PurePath) : M unit :=
  present <- path_exists host pkg_dir ;;
  if negb present then
    subprocess_run host
      ["uv"; "init"; "--lib"; "--build-backend"; "setuptools"; to_str pkg_dir]
      (Path_cwd host)
  else ret tt.

(** Step 2 (lines 97-108): the [src] layout and [main.py]. *)
Definition setup_src (script_path pkg_dir : PurePath) (pkg_name : string)
  : M unit :=
  let src_dir := pkg_dir // "src" // pkg_name in
  mkdir_parents host src_dir ;;
  let main_py := src_dir // "main.py" in
  present <- path_exists host main_py ;;
  if negb present then
    content <- read_text host script_path ;;
    let content :=
      if negb (PyStr.contains "def main()" content)
      then wrap_main content else content in
    write_text host main_py content
  else ret tt.

(** Step 3 (lines 110-114): the readme. *)
Definition handle_readme (script_path pkg_dir : PurePath) (bin_name : string)
  : M unit :=
  unlink_missing_ok host (pkg_dir // "README.md") ;;
  let readme_org := pkg_dir // "README.org" in
  present <- path_exists host readme_org ;;
  if negb present then
    write_text host readme_org
      ("* " ++ bin_name ++ PyStr.nl ++ PyStr.nl ++
       "Migrated from `" ++ name script_path ++ "`")
  else ret tt.

(** Step 4 (lines 116-133): the package's own [pyproject.toml]. *)
Definition update_local_pyproject (pkg_dir : PurePath)
    (pkg_name bin_name : string) : M unit :=
  let pp_path := pkg_dir // "pyproject.toml" in
  f <- open_ host pp_path ModeR ;;
  pp_data <- tomlkit_load host f ;;
  pp_data' <- lift (local_edit pp_data pkg_name bin_name) ;;
  f <- open_ host pp_path ModeW ;;
  fwrite f (TomlDoc pp_data').

(** Step 5, first half (lines 135-137): [git init]. *)
Definition git_init_repo (pkg_dir : PurePath) : M unit :=
  has_git <- path_exists host (pkg_dir // ".git") ;;
  if negb has_git then subprocess_run host ["git"; "init"] pkg_dir
  else ret tt.

(** Step 5, second half (lines 139-143): [.gitignore] and the first commit.
    Line 140 opens [.gitignore] without a mode, that is, for reading. *)
Definition initial_commit (pkg_dir : PurePath) : M unit :=
  has_ignore <- path_exists host (pkg_dir // ".gitignore") ;;
  if negb has_ignore then
    f <- open_ host (pkg_dir // ".gitignore") ModeR ;;
    fwrite f (Text ("*~" ++ PyStr.nl)) ;;
    subprocess_run host ["git"; "add"; "."] pkg_dir ;;
    subprocess_run host ["git"; "commit"; "-m"; "Initial migration"] pkg_dir
  else ret tt.

Definition git_setup (pkg_dir : PurePath) : M unit :=
  git_init_repo pkg_dir ;; initial_commit pkg_dir.

(** [if register:] holds for a non-empty string. *)
Definition truthy (register : option string) : option string :=
  match register with
  | Some "" => None
  | r => r
  end.

(** Step 6 (lines 145-149): the optional registration. *)
Definition register_umbrella (register : option string)
    (giturl_pattern pkg_name bin_name : string) : M unit :=
  match truthy register with
  | Some path =>
      umbrella_pp <- setup_umbrella path ;;
      git_url <- lift (str_format host giturl_pattern bin_name) ;;
      update_umbrella_deps_bin umbrella_pp pkg_name bin_name git_url
  | None => ret tt
  end.

(** The body of the loop of [migrate] (lines 84-149). *)
Definition migrate_one (register : option string) (giturl_pattern : string)
    (script : string) : M unit :=
  let script_path := Path script in
  let bin_name := get_bin_name script_path in
  let pkg_name := get_pkg_name script_path in
  let pkg_dir := (Path_cwd host) // bin_name in
  echo (PyStr.nl ++ "Processing: " ++ bin_name) ;;
  create_package pkg_dir ;;
  setup_src script_path pkg_dir pkg_name ;;
  handle_readme script_path pkg_dir bin_name ;;
  update_local_pyproject pkg_dir pkg_name bin_name ;;
  git_setup pkg_dir ;;
  register_umbrella register giturl_pattern pkg_name bin_name.

(** [migrate] (lines 80-149). *)
Definition migrate (scripts : list string) (register : option string)
    (giturl_pattern : string) : M unit :=
  for_each scripts (migrate_one register giturl_pattern).

End Script.

(** The default of [--giturl-pattern]. *)
Definition default_giturl_pattern : string :=
  "git+https://github.com/brettviren/{repo}".

(** ** A concrete host, for running the script on examples *)

Module Demo.

(** Add a node unless the path is taken. *)
Definition ensure (p : fspath) (n : node) (f : filesys) : filesys :=
  match f !! p with
  | Some _ => f
  | None => <[p := n]> f
  end.

(** The manifest [uv init --lib] writes, reduced to what matters here. *)
Definition fresh_project (pkg : string) : gmap string toml :=
  <["name" := TStr pkg]>
  (<["version" := TStr "0.1.0"]>
   (<["readme" := TStr "README.md"]>
    (<["dependencies" := TArr []]> ∅))).

Definition fresh_manifest (pkg : string) : doc :=
  <["project" := TTab (fresh_project pkg)]>
  (<["build-system" := TTab (<["build-backend" := TStr "setuptools"]> ∅)]> ∅).

(** [uv init --lib ... target]: refuses an initialised project; creates the
    directory, the manifest and [README.md]; with [vcs] (not inside a work
    tree already) also [.git] and [.gitignore]. *)
Definition uv_init (vcs : bool) (target : fspath) (f : filesys)
  : Z * filesys :=
  match f !! (target ++ ["pyproject.toml"])%list with
  | Some _ => (2%Z, f)
  | None =>
      let f1 := ensure target Dir f in
      let f2 := ensure (target ++ ["pyproject.toml"])%list
                  (File (TomlDoc (fresh_manifest (List.last target "")))) f1 in
      let f3 := ensure (target ++ ["README.md"])%list (File (Text "")) f2 in
      if vcs then
        (0%Z, ensure (target ++ [".gitignore"])%list (File (Text "*.pyc"))
                (ensure (target ++ [".git"])%list Dir f3))
      else (0%Z, f3)
  end.

Definition demo_tool (vcs : bool) (git_status : Z) (argv : list string)
    (dir : fspath) (f : filesys) : Z * filesys :=
  match argv with
  | cmd :: sub :: rest =>
      if String.eqb cmd "uv" then
        let target := Path (List.last rest "") in
        uv_init vcs (if anchored target then parts target
                     else (dir ++ parts target)%list) f
      else if String.eqb cmd "git" then
        if (git_status =? 0)%Z && String.eqb sub "init"
        then (0%Z, ensure (dir ++ [".git"])%list Dir f)
        else (git_status, f)
      else (127%Z, f)
  | _ => (127%Z, f)
  end.

Definition demo_host (vcs : bool) (git_status : Z) : Host :=
  {| cwd := ["work"];
     tool := demo_tool vcs git_status;
     toml_loads := fun _ => None;
     toml_dumps := fun _ => "";
     format_other := fun _ _ => Raise (FormatError "unsupported field") |}.

(** A working directory with two scripts. *)
Definition start_fs : filesys :=
  <[["work"] := Dir]>
  (<[["work"; "hello-world.py"] := File (Text "print('hi')")]>
   (<[["work"; "say_bye.py"] :=
        File (Text ("def main():" ++ PyStr.nl ++ "    print('bye')"))]> ∅)).

Definition start : world := World start_fs [].

(** The same, with an umbrella package already initialised in [tools]. *)
Definition with_umbrella : world :=
  World (uv_init true ["work"; "tools"] start_fs).2 [].

(** The host on which [uv init] also sets up version control, and the
    world after [hello-world.py] was migrated and registered on it. *)
Definition vcs_host : Host := demo_host true 0.

Definition registered : world :=
  (migrate vcs_host ["hello-world.py"] (Some "tools")
     default_giturl_pattern with_umbrella).2.

(** The start world after step 1 for [hello-world.py] on that host. *)
Definition scaffolded : world :=
  (create_package vcs_host (Path_cwd vcs_host // "hello-world") start).2.

(** The host on which [uv init] runs inside an existing work tree and
    leaves version control alone: no [.git], no [.gitignore]. *)
Definition plain_host : Host := demo_host false 0.

End Demo.

(** * Vocabulary of the properties *)

(** What the docstring of [get_pkg_name] asks for, character by
    character. *)
Definition underscore (c : ascii) : ascii :=
  if Ascii.eqb c "-" then "_"%char else c.

Fixpoint map_chars (f : ascii -> ascii) (s : string) : string :=
  match s with
  | EmptyString => EmptyString
  | String c s' => String (f c) (map_chars f s')
  end.

(** The scripts table the code finds in a project table, or the empty one
    it creates. *)
Definition scripts_of (p m : gmap string toml) : Prop :=
  p !! "scripts" = Some (TTab m) \/ (p !! "scripts" = None /\ m = ∅).

(** The dependency value the code reads: the stored one, or the default
    empty list. *)
Definition deps_of (p : gmap string toml) : toml :=
  default (TArr []) (p !! "dependencies").

(** The document [tomlkit.load] returns for the file at [q]. *)
Definition read_doc (host : Host) (f : filesys) (q : fspath) : option doc :=
  match lookup_node f q with
  | Some (File (TomlDoc d)) => Some d
  | Some (File (Text s)) => toml_loads host s
  | _ => None
  end.

(** A computation that leaves every node it finds at [u] as it is,
    whatever its outcome. *)
Definition keeps {A} (u : fspath) (m : M A) : Prop :=
  forall w n, fs w !! u = Some n -> fs (m w).2 !! u = Some n.

(** The external tools never touch an existing node at [u]. *)
Definition tool_keeps (host : Host) (u : fspath) : Prop :=
  forall argv dir f n,
    f !! u = Some n -> (tool host argv dir f).2 !! u = Some n.

(** The shape both manifest updates share: load, edit, write back. *)
Definition rewrite_manifest (host : Host) (p : PurePath)
    (edit : doc -> result doc) : M unit :=
  (f <- open_ host p ModeR ;;
   data <- tomlkit_load host f ;;
   data' <- lift (edit data) ;;
   f <- open_ host p ModeW ;;
   fwrite f (TomlDoc data'))%eff.

(** The world after [d] was written back to [q]. *)
Definition written (q : fspath) (d : doc) (w : world) : world :=
  World (<[q := File (TomlDoc d)]> (fs w))
        (EWrite q (TomlDoc d) :: ETruncate q :: log w).

(** The project table after the dependency step: unchanged when the entry
    is found, extended at the end otherwise. *)
Definition deps_step (entry : string) (p p' : gmap string toml) : Prop :=
  (py_in entry (deps_of p) = Ok true /\ p' = p) \/
  (exists l, deps_of p = TArr l /\ ~ In (TStr entry) l /\
             p' = <["dependencies" := TArr (l ++ [TStr entry])]> p).

(** A path component that [p // c] appends as it is. *)
Definition simple_part (c : string) : Prop :=
  String.prefix "/" c = false /\ parse_parts c = [c].




(** The document maps the command [bin_name] to the entry point of
    [pkg_name] in [project.scripts]. *)
Definition has_entry_point (pkg_name bin_name : string) (d : doc) : Prop :=
  exists p m,
    d !! "project" = Some (TTab p) /\ p !! "scripts" = Some (TTab m) /\
    m !! bin_name = Some (TStr (entry_point pkg_name)).

(** The document stored in the manifest file at [u], if it is one. *)
Definition manifest_at (w : world) (u : fspath) : option doc :=
  match fs w !! u with
  | Some (File (TomlDoc d)) => Some d
  | _ => None
  end.

(** [project.dependencies] of a document. *)
Definition dependencies (d : doc) : option toml :=
  match d !! "project" with
  | Some (TTab p) => p !! "dependencies"
  | _ => None
  end.

(** [project.scripts[bin_name]] of a document. *)
Definition script_target (d : doc) (bin_name : string) : option toml :=
  match d !! "project" with
  | Some (TTab p) =>
      match p !! "scripts" with
      | Some (TTab m) => m !! bin_name
      | _ => None
      end
  | _ => None
  end.

(** The manifest path of the umbrella package given to [--register]. *)
Definition umbrella_manifest (host : Host) (path : string) : fspath :=
  abspath host (Path path // "pyproject.toml").





(** The events a run added to the log, newest first. *)
Definition new_events (w w' : world) : list event :=
  take (length (log w') - length (log w)) (log w').

(** No external tool in [t] failed. *)
Definition quiet (t : list event) : Prop :=
  forall argv dir code, In (ERun argv dir code) t -> code = 0%Z.

(** Fail fast: the events of a run are quiet, except that the last one may
    be a tool that failed, and then the run raised that failure. *)
Definition failfast_post {A} (w : world) (r : result A) (w' : world) : Prop :=
  exists t, log w' = (t ++ log w)%list /\
    (quiet t \/
     exists argv dir code t',
       t = ERun argv dir code :: t' /\ code <> 0%Z /\ quiet t' /\
       r = Raise (CalledProcessError argv code)).

Definition failfast {A} (m : M A) : Prop :=
  forall w, failfast_post w (m w).1 (m w).2.

(** An event that is not a tool invocation. *)
Definition not_run (e : event) : Prop :=
  match e with
  | ERun _ _ _ => False
  | _ => True
  end.

(** The claim that the umbrella manifest is written back only if something
    changed: a successful update that leaves the document as it was adds no
    event to the log. *)
Definition writes_only_if_changed (host : Host) : Prop :=
  forall pp pkg_name bin_name git_url w w',
    update_umbrella_deps_bin host pp pkg_name bin_name git_url w
    = (Ok tt, w') ->
    manifest_at w' (abspath host pp) = manifest_at w (abspath host pp) ->
    new_events w w' = [].

(** The log of [w'] extends the log of [w]. *)
Definition log_ext (w w' : world) : Prop :=
  exists t, log w' = (t ++ log w)%list.

(** What [read_text] returns for a file. *)
Definition content_text (host : Host) (c : content) : string :=
  match c with
  | Text s => s
  | TomlDoc d => toml_dumps host d
  end.

(** The names of the files the script replaces or removes when they
    exist; [main.py] and [README.org] are written only when missing. *)
Definition written_names : list string := ["README.md"; "pyproject.toml"].

(** A path whose last component is none of them. *)
Definition foreign (u : fspath) : bool :=
  negb (existsb (String.eqb (List.last u "")) written_names).

(** The events of [m] from [w] are no tool invocations. *)
Definition tool_free_at {A} (w : world) (m : M A) : Prop :=
  exists t, log (m w).2 = (t ++ log w)%list /\ Forall not_run t.

(** A computation that never invokes a tool. *)
Definition tool_free {A} (m : M A) : Prop := forall w, tool_free_at w m.

(** ** Sample worlds for the further properties *)

Module Samples.

(** An umbrella directory whose manifest has no [project] table. *)
Definition bare_umbrella : world :=
  World (<[["work"] := Dir]>
         (<[["work"; "tools"] := Dir]>
          (<[["work"; "tools"; "pyproject.toml"] := File (TomlDoc ∅)]> ∅)))
        [].


End Samples.

(** * Properties *)

(** ** Names (lines 16-22) *)

Lemma prefix_empty s : String.prefix "" s = true.
Proof. by destruct s. Qed.

Lemma replace_hyphen s :
  PyStr.replace "-" "_" s = map_chars underscore s.
Proof.
  unfold PyStr.replace.
  induction s as [|c s IH]; first done.
  cbn [PyStr.replace_from map_chars String.prefix String.length].
  destruct (ascii_dec "-" c) as [<-|Hne].
  - rewrite prefix_empty. cbn. by rewrite IH.
  - rewrite IH. f_equal. unfold underscore.
    destruct (Ascii.eqb_spec c "-"); congruence.
Qed.

Lemma get_map_chars f s i :
  String.get i (map_chars f s) = f <$> String.get i s.
Proof.
  revert i. induction s as [|c s IH]; intros [|i]; cbn; auto.
Qed.

Lemma length_map_chars f s :
  String.length (map_chars f s) = String.length s.
Proof. induction s; cbn; auto. Qed.

Lemma underscore_not_hyphen c : underscore c <> "-"%char.
Proof.
  unfold underscore. destruct (Ascii.eqb_spec c "-"); [discriminate | done].
Qed.

Lemma no_hyphen_after_map s :
  PyStr.contains "-" (map_chars underscore s) = false.
Proof.
  induction s as [|c s IH]; first done.
  cbn [map_chars PyStr.contains String.prefix].
  destruct (ascii_dec "-" (underscore c)) as [E|_].
  - by destruct (underscore_not_hyphen c).
  - by rewrite IH.
Qed.

(** C3. For every script path, the package name is the file name's stem
    with each hyphen replaced by an underscore: same length, the same
    character at every position except that ['-'] became ['_'], and no
    hyphen left in it.  The command name is the stem itself. *)
Theorem names_derived_from_stem (script_path : PurePath) :
  get_bin_name script_path = stem script_path /\
  get_pkg_name script_path = map_chars underscore (stem script_path) /\
  String.length (get_pkg_name script_path)
    = String.length (stem script_path) /\
  (forall i, String.get i (get_pkg_name script_path)
             = underscore <$> String.get i (stem script_path)) /\
  PyStr.contains "-" (get_pkg_name script_path) = false.
Proof.
  unfold get_bin_name, get_pkg_name. rewrite replace_hyphen.
  split_and!; auto using length_map_chars, get_map_chars, no_hyphen_after_map.
Qed.

(** ** The manifest edits (lines 40-52 and 121-130) *)

Section Edits.

Implicit Types (d : doc) (p m : gmap string toml) (l : list toml).

Lemma existsb_eq_str entry l :
  existsb (eq_str entry) l = true <-> In (TStr entry) l.
Proof.
  rewrite existsb_exists. split.
  - intros (x & Hx & E). destruct x; try discriminate.
    cbn in E. apply String.eqb_eq in E. by subst.
  - intros H. exists (TStr entry). split; first done.
    cbn. apply String.eqb_refl.
Qed.

Lemma set_entry_point_inv d pkg_name bin_name d' :
  set_entry_point d pkg_name bin_name = Ok d' ->
  exists p m,
    d !! "project" = Some (TTab p) /\ scripts_of p m /\
    d' = <["project" :=
            TTab (<["scripts" :=
                    TTab (<[bin_name := TStr (entry_point pkg_name)]> m)]> p)]> d.
Proof.
  unfold set_entry_point, scripts_of. cbn.
  destruct (d !! "project") as [[s|z|b|l|p]|] eqn:Hp; cbn; try discriminate;
    try (destruct (negb _); cbn; discriminate).
  destruct (p !! "scripts") as [v|] eqn:Hs.
  - rewrite bool_decide_eq_true_2 by eauto. cbn. rewrite Hs. cbn.
    destruct v as [| | | |m]; cbn; try discriminate.
    intros [= <-]. exists p, m. auto.
  - rewrite bool_decide_eq_false_2 by (intros [? ?]; discriminate).
    cbn. rewrite lookup_insert_eq. cbn. rewrite insert_insert_eq.
    intros [= <-]. exists p, ∅. auto.
Qed.

Lemma set_entry_point_total d pkg_name bin_name p m :
  d !! "project" = Some (TTab p) -> scripts_of p m ->
  set_entry_point d pkg_name bin_name
  = Ok (<["project" :=
          TTab (<["scripts" :=
                  TTab (<[bin_name := TStr (entry_point pkg_name)]> m)]> p)]> d).
Proof.
  intros Hp [Hs|[Hs ->]]; unfold set_entry_point; cbn; rewrite Hp; cbn.
  - rewrite bool_decide_eq_true_2 by eauto. cbn. by rewrite Hs.
  - rewrite Hs, bool_decide_eq_false_2 by (intros [? ?]; discriminate).
    cbn. rewrite lookup_insert_eq. cbn. by rewrite insert_insert_eq.
Qed.

Lemma add_dependency_inv d pkg_name git_url d' :
  add_dependency d pkg_name git_url = Ok d' ->
  exists p,
    d !! "project" = Some (TTab p) /\
    ((py_in (dep_entry pkg_name git_url) (deps_of p) = Ok true /\ d' = d) \/
     (exists l, deps_of p = TArr l /\
                ~ In (TStr (dep_entry pkg_name git_url)) l /\
                d' = <["project" :=
                        TTab (<["dependencies" :=
                                TArr (l ++ [TStr (dep_entry pkg_name git_url)])]>
                              p)]> d)).
Proof.
  unfold add_dependency, deps_of. cbn.
  destruct (d !! "project") as [[s|z|b|l|p]|] eqn:Hp; cbn; try discriminate.
  destruct (py_in _ _) as [[]|] eqn:Hin; cbn; try discriminate.
  - intros [= <-]. exists p. auto.
  - destruct (default _ _) as [| | |l|] eqn:Hd; cbn; try discriminate.
    intros [= <-]. exists p. split; first done. right. exists l.
    split_and!; try done.
    cbn in Hin. injection Hin as Hin. rewrite <- existsb_eq_str.
    by rewrite Hin.
Qed.

Lemma add_dependency_present d pkg_name git_url p :
  d !! "project" = Some (TTab p) ->
  py_in (dep_entry pkg_name git_url) (deps_of p) = Ok true ->
  add_dependency d pkg_name git_url = Ok d.
Proof.
  intros Hp Hin. unfold add_dependency. cbn. rewrite Hp. cbn.
  fold (deps_of p). by rewrite Hin.
Qed.

Lemma add_dependency_absent d pkg_name git_url p l :
  d !! "project" = Some (TTab p) ->
  deps_of p = TArr l ->
  ~ In (TStr (dep_entry pkg_name git_url)) l ->
  add_dependency d pkg_name git_url
  = Ok (<["project" :=
          TTab (<["dependencies" :=
                  TArr (l ++ [TStr (dep_entry pkg_name git_url)])]> p)]> d).
Proof.
  intros Hp Hd Hin. unfold add_dependency. cbn. rewrite Hp. cbn.
  fold (deps_of p). rewrite Hd. cbn.
  destruct (existsb _ l) eqn:E.
  - apply existsb_eq_str in E. contradiction.
  - reflexivity.
Qed.

Lemma scripts_of_insert_ne k v p m :
  k <> "scripts" -> scripts_of (<[k := v]> p) m <-> scripts_of p m.
Proof. intros Hk. unfold scripts_of. by rewrite lookup_insert_ne. Qed.

Lemma local_edit_inv d pkg_name bin_name d' :
  local_edit d pkg_name bin_name = Ok d' ->
  exists p m,
    d !! "project" = Some (TTab p) /\ scripts_of p m /\
    d' = <["project" :=
            TTab (<["scripts" :=
                    TTab (<[bin_name := TStr (entry_point pkg_name)]> m)]>
                  (<["readme" := org_readme]> p))]> d.
Proof.
  unfold local_edit. cbn.
  destruct (d !! "project") as [[s|z|b|l|p]|] eqn:Hp; cbn; try discriminate.
  intros H. apply set_entry_point_inv in H as (p' & m & Hp' & Hm & ->).
  rewrite lookup_insert_eq in Hp'. injection Hp' as <-.
  apply scripts_of_insert_ne in Hm; last done.
  exists p, m. split_and!; try done. by rewrite insert_insert_eq.
Qed.

Lemma umbrella_edit_inv d pkg_name bin_name git_url d' :
  umbrella_edit d pkg_name bin_name git_url = Ok d' ->
  exists p p1 m,
    d !! "project" = Some (TTab p) /\ scripts_of p m /\
    deps_step (dep_entry pkg_name git_url) p p1 /\
    d' = <["project" :=
            TTab (<["scripts" :=
                    TTab (<[bin_name := TStr (entry_point pkg_name)]> m)]>
                  p1)]> d.
Proof.
  unfold umbrella_edit.
  destruct (add_dependency d pkg_name git_url) as [d1|] eqn:Ha;
    cbn; last discriminate.
  intros Hs.
  apply add_dependency_inv in Ha as (p & Hp & [[Hin ->]|(l & Hl & Hnin & ->)]);
    apply set_entry_point_inv in Hs as (p' & m & Hp' & Hm & ->).
  - rewrite Hp in Hp'. injection Hp' as <-.
    exists p, p, m. split_and!; try done. by left.
  - rewrite lookup_insert_eq in Hp'. injection Hp' as <-.
    apply scripts_of_insert_ne in Hm; last done.
    exists p, (<["dependencies" := TArr (l ++ [TStr (dep_entry pkg_name git_url)])]> p), m.
    split_and!; try done.
    + right. by exists l.
    + by rewrite insert_insert_eq.
Qed.



Lemma umbrella_edit_entry_point d pkg_name bin_name git_url d' :
  umbrella_edit d pkg_name bin_name git_url = Ok d' ->
  has_entry_point pkg_name bin_name d'.
Proof.
  intros H. apply umbrella_edit_inv in H as (p & p1 & m & _ & _ & _ & ->).
  do 2 eexists. by rewrite !lookup_insert_eq.
Qed.

Lemma local_edit_entry_point d pkg_name bin_name d' :
  local_edit d pkg_name bin_name = Ok d' ->
  has_entry_point pkg_name bin_name d'.
Proof.
  intros H. apply local_edit_inv in H as (p & m & _ & _ & ->).
  do 2 eexists. by rewrite !lookup_insert_eq.
Qed.


End Edits.

(** ** Reasoning about effects *)

Lemma bind_ok_inv {A B} (m : M A) (f : A -> M B) w b w' :
  bind m f w = (Ok b, w') ->
  exists a w1, m w = (Ok a, w1) /\ f a w1 = (Ok b, w').
Proof.
  unfold bind. destruct (m w) as [[a|e] w1]; last discriminate. eauto.
Qed.

Lemma bind_ok {A B} (m : M A) (f : A -> M B) w a w1 :
  m w = (Ok a, w1) -> bind m f w = f a w1.
Proof. unfold bind. by intros ->. Qed.

(** A run whose outcome is [Ok a] is that outcome with its final world. *)
Lemma run_ok_eq {A} (m : M A) w a :
  (m w).1 = Ok a -> m w = (Ok a, (m w).2).
Proof. destruct (m w) as [r w']. cbn. by intros ->. Qed.

Lemma bind_raise {A B} (m : M A) (f : A -> M B) w e w1 :
  m w = (Raise e, w1) -> bind m f w = (Raise e, w1).
Proof. unfold bind. by intros ->. Qed.

Section Keeps.

Variable host : Host.
Variable u : fspath.

Lemma keeps_ret {A} (a : A) : keeps u (ret a).
Proof. by intros w n. Qed.

Lemma keeps_lift {A} (r : result A) : keeps u (lift r).
Proof. by intros w n. Qed.

Lemma keeps_bind {A B} (m : M A) (f : A -> M B) :
  keeps u m -> (forall a, keeps u (f a)) -> keeps u (bind m f).
Proof.
  intros Hm Hf w n Hn. specialize (Hm w n Hn). unfold bind.
  destruct (m w) as [[a|e] w1]; cbn in *; auto.
  by apply Hf.
Qed.

Lemma keeps_if {A} (b : bool) (m1 m2 : M A) :
  keeps u m1 -> keeps u m2 -> keeps u (if b then m1 else m2).
Proof. by destruct b. Qed.

Lemma keeps_echo s : keeps u (echo s).
Proof. by intros w n. Qed.

Lemma keeps_path_exists p : keeps u (path_exists host p).
Proof. by intros w n. Qed.

Lemma keeps_subprocess_run argv dir :
  tool_keeps host u -> keeps u (subprocess_run host argv dir).
Proof.
  intros Ht w n Hn. unfold subprocess_run.
  specialize (Ht argv (abspath host dir) (fs w) n Hn).
  destruct (tool host _ _ _) as [code f']. cbn in Ht.
  by destruct (code =? 0)%Z.
Qed.

Lemma keeps_mkdirs made todo : keeps u (mkdirs made todo).
Proof.
  revert made. induction todo as [|c rest IH]; intros made.
  - apply keeps_ret.
  - cbn [mkdirs]. apply keeps_bind; last by (intros; apply IH).
    intros w n Hn.
    destruct (lookup_node (fs w) (made ++ [c])%list) as [[|c0]|] eqn:E;
      cbn; try done.
    + by destruct rest.
    + rewrite lookup_insert_ne; first done.
      intros Heq. rewrite Heq in E.
      destruct u; cbn in E; congruence.
Qed.

Lemma keeps_mkdir_parents p : keeps u (mkdir_parents host p).
Proof. apply keeps_mkdirs. Qed.

Lemma keeps_open_r p : keeps u (open_ host p ModeR).
Proof.
  intros w n Hn. unfold open_.
  by destruct (lookup_node _ _) as [[|?]|].
Qed.

Lemma keeps_tomlkit_load f : keeps u (tomlkit_load host f).
Proof.
  intros w n Hn. unfold tomlkit_load.
  destruct (fs w !! h_path f) as [[|[s|d]]|]; try done.
  by destruct (toml_loads host s).
Qed.

Lemma keeps_read_text p : keeps u (read_text host p).
Proof.
  intros w n Hn. unfold read_text, bind, open_, fread.
  destruct (lookup_node _ _) as [[|?]|]; try done. cbn.
  by destruct (fs w !! abspath host p) as [[|[?|?]]|].
Qed.

Lemma keeps_write_text p s : abspath host p <> u -> keeps u (write_text host p s).
Proof.
  intros Hne w n Hn. unfold write_text, bind, open_, fwrite.
  destruct (lookup_node (fs w) (abspath host p)) as [[|?]|]; try done;
    destruct (lookup_node (fs w) (parent _)) as [[|?]|]; try done;
    cbn; by rewrite !lookup_insert_ne.
Qed.

Lemma keeps_unlink p :
  abspath host p <> u -> keeps u (unlink_missing_ok host p).
Proof.
  intros Hne w n Hn. unfold unlink_missing_ok.
  destruct (lookup_node _ _) as [[|?]|]; try done.
  cbn. by rewrite lookup_delete_ne.
Qed.

End Keeps.

(** ** Manifest updates as effects *)

Section Manifest.

Variable host : Host.

Lemma lookup_node_file f q c :
  lookup_node f q = Some (File c) -> f !! q = Some (File c).
Proof. by destruct q. Qed.

Lemma lookup_node_none f q : lookup_node f q = None -> f !! q = None.
Proof. by destruct q. Qed.


Lemma update_umbrella_deps_bin_shape p pkg_name bin_name git_url :
  update_umbrella_deps_bin host p pkg_name bin_name git_url
  = rewrite_manifest host p
      (fun d => umbrella_edit d pkg_name bin_name git_url).
Proof. reflexivity. Qed.

Lemma update_local_pyproject_shape pkg_dir pkg_name bin_name :
  update_local_pyproject host pkg_dir pkg_name bin_name
  = rewrite_manifest host (pkg_dir // "pyproject.toml")
      (fun d => local_edit d pkg_name bin_name).
Proof. reflexivity. Qed.

Lemma open_r_inv p w h w' :
  open_ host p ModeR w = (Ok h, w') ->
  h = Handle (abspath host p) ModeR /\ w' = w /\
  exists c, lookup_node (fs w) (abspath host p) = Some (File c).
Proof.
  unfold open_. destruct (lookup_node _ _) as [[|c]|]; try discriminate.
  intros [= <- <-]. eauto.
Qed.

Lemma open_r_raise p w e w' :
  open_ host p ModeR w = (Raise e, w') -> w' = w.
Proof.
  unfold open_. destruct (lookup_node _ _) as [[|c]|]; try discriminate;
    by intros [= <- <-].
Qed.

Lemma open_w_inv p w h w' :
  open_ host p ModeW w = (Ok h, w') ->
  h = Handle (abspath host p) ModeW /\
  w' = emit (ETruncate (abspath host p))
         (set_node (abspath host p) (File (Text "")) w) /\
  lookup_node (fs w) (parent (abspath host p)) = Some Dir /\
  lookup_node (fs w) (abspath host p) <> Some Dir.
Proof.
  unfold open_.
  destruct (lookup_node (fs w) (abspath host p)) as [[|c]|];
    try discriminate;
    destruct (lookup_node (fs w) (parent _)) as [[|?]|]; try discriminate;
    intros [= <- <-]; done.
Qed.

Lemma open_w_raise p w e w' :
  open_ host p ModeW w = (Raise e, w') -> w' = w.
Proof.
  unfold open_.
  destruct (lookup_node (fs w) (abspath host p)) as [[|c]|];
    try (by intros [= <- <-]);
    destruct (lookup_node (fs w) (parent _)) as [[|?]|]; try discriminate;
    by intros [= <- <-].
Qed.

Lemma open_w_run p w :
  lookup_node (fs w) (parent (abspath host p)) = Some Dir ->
  lookup_node (fs w) (abspath host p) <> Some Dir ->
  open_ host p ModeW w
  = (Ok (Handle (abspath host p) ModeW),
     emit (ETruncate (abspath host p))
       (set_node (abspath host p) (File (Text "")) w)).
Proof.
  unfold open_. intros -> Hq.
  by destruct (lookup_node (fs w) (abspath host p)) as [[|c]|].
Qed.

Lemma tomlkit_load_inv q md w r w' :
  tomlkit_load host (Handle q md) w = (r, w') ->
  w' = w /\
  forall d, r = Ok d -> lookup_node (fs w) q <> Some Dir ->
            read_doc host (fs w) q = Some d.
Proof.
  unfold tomlkit_load, read_doc. cbn [h_path]. intros H. split.
  - destruct (fs w !! q) as [[|[s|d]]|];
      try (destruct (toml_loads host _)); by injection H.
  - intros d -> Hnd. destruct q as [|c q]; first by destruct Hnd.
    cbn in *. repeat case_match; simplify_eq; done.
Qed.

Lemma tomlkit_load_run q md w d :
  read_doc host (fs w) q = Some d ->
  tomlkit_load host (Handle q md) w = (Ok d, w).
Proof.
  unfold tomlkit_load, read_doc. cbn [h_path].
  destruct (lookup_node (fs w) q) as [[|c]|] eqn:E; try discriminate.
  rewrite (lookup_node_file _ _ _ E).
  destruct c as [s|d0]; [by intros -> | by intros [= ->]].
Qed.

Lemma bind_raise_inv {A B} (m : M A) (f : A -> M B) w e w' :
  bind m f w = (Raise e, w') ->
  m w = (Raise e, w') \/
  exists a w1, m w = (Ok a, w1) /\ f a w1 = (Raise e, w').
Proof.
  unfold bind. destruct (m w) as [[a|e1] w1]; intros H.
  - right. by exists a, w1.
  - left. by injection H as -> ->.
Qed.

(** A successful update read a document, edited it, and wrote the result
    back; nothing else changed. *)
Lemma rewrite_manifest_ok p edit w w' :
  rewrite_manifest host p edit w = (Ok tt, w') ->
  exists d d',
    read_doc host (fs w) (abspath host p) = Some d /\
    edit d = Ok d' /\
    lookup_node (fs w) (parent (abspath host p)) = Some Dir /\
    w' = written (abspath host p) d' w.
Proof.
  unfold rewrite_manifest. intros H.
  apply bind_ok_inv in H as (h & w1 & Ho & H).
  apply open_r_inv in Ho as (-> & -> & c & Hc).
  apply bind_ok_inv in H as (d & w1 & Hl & H).
  apply tomlkit_load_inv in Hl as (-> & Hd).
  specialize (Hd d eq_refl). rewrite Hc in Hd. specialize (Hd ltac:(done)).
  apply bind_ok_inv in H as (d' & w1 & He & H).
  unfold lift in He. injection He as He <-.
  apply bind_ok_inv in H as (h & w1 & Ho & H).
  apply open_w_inv in Ho as (-> & -> & Hp & _).
  unfold fwrite in H. cbn in H. injection H as <-.
  exists d, d'. split_and!; try done.
  unfold written, emit, set_node. cbn. by rewrite insert_insert_eq.
Qed.

(** A failed update changed nothing. *)
Lemma rewrite_manifest_raise p edit w e w' :
  rewrite_manifest host p edit w = (Raise e, w') -> w' = w.
Proof.
  unfold rewrite_manifest. intros H.
  apply bind_raise_inv in H as [H|(h & w1 & Ho & H)].
  { by apply open_r_raise in H. }
  apply open_r_inv in Ho as (-> & -> & c & Hc).
  apply bind_raise_inv in H as [H|(d & w1 & Hl & H)].
  { by apply tomlkit_load_inv in H as [-> _]. }
  apply tomlkit_load_inv in Hl as (-> & _).
  apply bind_raise_inv in H as [H|(d' & w1 & He & H)].
  { unfold lift in H. by injection H as _ <-. }
  unfold lift in He. injection He as He <-.
  apply bind_raise_inv in H as [H|(h & w1 & Ho & H)].
  { by apply open_w_raise in H. }
  apply open_w_inv in Ho as (-> & -> & _).
  unfold fwrite in H. cbn in H. discriminate.
Qed.

(** The update succeeds whenever the file holds a document the edit
    accepts and its directory exists. *)
Lemma rewrite_manifest_run p edit w d d' :
  read_doc host (fs w) (abspath host p) = Some d ->
  edit d = Ok d' ->
  lookup_node (fs w) (parent (abspath host p)) = Some Dir ->
  rewrite_manifest host p edit w = (Ok tt, written (abspath host p) d' w).
Proof.
  intros Hd He Hp. unfold rewrite_manifest.
  assert (exists c, lookup_node (fs w) (abspath host p) = Some (File c))
    as [c Hc].
  { unfold read_doc in Hd.
    destruct (lookup_node _ _) as [[|c]|]; try discriminate. eauto. }
  erewrite bind_ok; last by (unfold open_; rewrite Hc).
  erewrite bind_ok; last by apply tomlkit_load_run.
  erewrite bind_ok; last by (unfold lift; rewrite He).
  erewrite bind_ok; last by (apply open_w_run; [done | by rewrite Hc]).
  unfold fwrite, written, emit, set_node. cbn. by rewrite insert_insert_eq.
Qed.

End Manifest.

(** ** Paths *)

Section Paths.

Variable host : Host.

Lemma abspath_join p c :
  simple_part c -> abspath host (p // c) = (abspath host p ++ [c])%list.
Proof.
  intros [Hs Hp]. unfold joinpath, abspath. rewrite Hs, Hp. cbn.
  destruct (anchored p); [done | by rewrite app_assoc].
Qed.

Lemma simple_pyproject : simple_part "pyproject.toml".
Proof. by split. Qed.
Lemma simple_main_py : simple_part "main.py".
Proof. by split. Qed.
Lemma simple_readme_md : simple_part "README.md".
Proof. by split. Qed.
Lemma simple_gitignore : simple_part ".gitignore".
Proof. by split. Qed.
Lemma simple_git : simple_part ".git".
Proof. by split. Qed.


Lemma abspath_join_nonempty p c :
  simple_part c -> abspath host (p // c) <> [].
Proof.
  intros H. rewrite abspath_join by done. by destruct (abspath host p).
Qed.

Lemma parent_join p c :
  simple_part c -> parent (abspath host (p // c)) = abspath host p.
Proof.
  intros H. rewrite abspath_join by done. unfold parent.
  by rewrite removelast_last.
Qed.

End Paths.

(** ** The steps of [migrate] and the umbrella manifest *)

Section Steps.

Variable host : Host.
Variable up : PurePath.

Let u : fspath := abspath host (up // "pyproject.toml").

Hypothesis Htool : tool_keeps host u.




(** [initial_commit] never gets past line 140: either [.gitignore] exists
    and the step is skipped, or opening it for reading fails. *)
Lemma initial_commit_spec pkg_dir w :
  initial_commit host pkg_dir w
  = (match lookup_node (fs w) (abspath host (pkg_dir // ".gitignore")) with
     | Some _ => Ok tt
     | None => Raise (OSError FileNotFound
                        (abspath host (pkg_dir // ".gitignore")))
     end, w).
Proof.
  unfold initial_commit, bind, path_exists, open_.
  destruct (lookup_node _ _) as [n|] eqn:E.
  - rewrite bool_decide_eq_true_2 by eauto. done.
  - rewrite bool_decide_eq_false_2 by (intros [? ?]; discriminate).
    cbn [negb]. cbv beta. by rewrite E.
Qed.



Lemma setup_umbrella_value path w pp w' :
  setup_umbrella host path w = (Ok pp, w') ->
  pp = Path path // "pyproject.toml".
Proof.
  unfold setup_umbrella. intros H.
  apply bind_ok_inv in H as (b & w1 & _ & H).
  apply bind_ok_inv in H as (? & w2 & _ & H).
  by injection H as <- _.
Qed.



End Steps.

(** ** One iteration of [migrate] *)

Section Iteration.

Variable host : Host.

Lemma migrate_one_ok_inv register giturl_pattern script w w' :
  migrate_one host register giturl_pattern script w = (Ok tt, w') ->
  let script_path := Path script in
  let bin_name := get_bin_name script_path in
  let pkg_name := get_pkg_name script_path in
  let pkg_dir := Path_cwd host // bin_name in
  exists w1 w2 w3 w4 w5 w6,
    echo (PyStr.nl ++ "Processing: " ++ bin_name) w = (Ok tt, w1) /\
    create_package host pkg_dir w1 = (Ok tt, w2) /\
    setup_src host script_path pkg_dir pkg_name w2 = (Ok tt, w3) /\
    handle_readme host script_path pkg_dir bin_name w3 = (Ok tt, w4) /\
    update_local_pyproject host pkg_dir pkg_name bin_name w4 = (Ok tt, w5) /\
    git_setup host pkg_dir w5 = (Ok tt, w6) /\
    register_umbrella host register giturl_pattern pkg_name bin_name w6
    = (Ok tt, w').
Proof.
  unfold migrate_one. intros H. cbv zeta.
  apply bind_ok_inv in H as ([] & w1 & H1 & H).
  apply bind_ok_inv in H as ([] & w2 & H2 & H).
  apply bind_ok_inv in H as ([] & w3 & H3 & H).
  apply bind_ok_inv in H as ([] & w4 & H4 & H).
  apply bind_ok_inv in H as ([] & w5 & H5 & H).
  apply bind_ok_inv in H as ([] & w6 & H6 & H).
  by exists w1, w2, w3, w4, w5, w6.
Qed.

Lemma register_umbrella_ok register giturl_pattern pkg_name bin_name path
    w w' :
  truthy register = Some path ->
  register_umbrella host register giturl_pattern pkg_name bin_name w
  = (Ok tt, w') ->
  let pp := Path path // "pyproject.toml" in
  exists w1 d git_url d',
    setup_umbrella host path w = (Ok pp, w1) /\
    str_format host giturl_pattern bin_name = Ok git_url /\
    read_doc host (fs w1) (abspath host pp) = Some d /\
    umbrella_edit d pkg_name bin_name git_url = Ok d' /\
    w' = written (abspath host pp) d' w1.
Proof.
  unfold register_umbrella. intros -> H. cbv zeta.
  apply bind_ok_inv in H as (pp & w1 & Hs & H).
  pose proof (setup_umbrella_value _ _ _ _ _ Hs) as ->.
  apply bind_ok_inv in H as (git_url & w2 & Hf & H).
  unfold lift in Hf. injection Hf as Hf <-.
  rewrite update_umbrella_deps_bin_shape in H.
  apply rewrite_manifest_ok in H as (d & d' & Hr & He & _ & ->).
  by exists w1, d, git_url, d'.
Qed.


Variable path : string.

Let u : fspath := abspath host (Path path // "pyproject.toml").

Hypothesis Htool : tool_keeps host u.


End Iteration.

(** ** The demo host *)

Section DemoHost.

Import Demo.

Lemma ensure_keeps p n f u x :
  f !! u = Some x -> ensure p n f !! u = Some x.
Proof.
  intros Hu. unfold ensure. destruct (f !! p) eqn:E; first done.
  rewrite lookup_insert_ne; first done. intros ->. congruence.
Qed.

Lemma demo_tool_keeps vcs git_status u :
  tool_keeps (demo_host vcs git_status) u.
Proof.
  intros argv dir f n Hn. cbn [tool demo_host]. unfold demo_tool.
  destruct argv as [|cmd [|sub rest]]; try done.
  destruct (String.eqb cmd "uv").
  - unfold uv_init. destruct (f !! (_ ++ _)%list); first done.
    destruct vcs; cbn [snd]; repeat apply ensure_keeps; done.
  - destruct (String.eqb cmd "git"); last done.
    destruct (_ && _); cbn [snd]; [by apply ensure_keeps | done].
Qed.

End DemoHost.

(** ** Idempotence of the registration *)




(** ** Distinct scripts give distinct dependency entries *)















(** ** Fail fast on external tools *)

Section FailFast.

Variable host : Host.

Lemma quiet_nil : quiet [].
Proof. by intros ? ? ? []. Qed.

Lemma quiet_app t1 t2 : quiet t1 -> quiet t2 -> quiet (t1 ++ t2).
Proof.
  intros H1 H2 argv dir code Hin. apply in_app_or in Hin as [?|?]; eauto.
Qed.

Lemma quiet_cons e t : not_run e -> quiet t -> quiet (e :: t).
Proof.
  intros He Ht argv dir code [->|Hin]; [by destruct He | eauto].
Qed.

(** A step that adds only events that are not tool invocations. *)
Lemma failfast_step {A} (w : world) (r : result A) (w' : world) t :
  log w' = (t ++ log w)%list -> Forall not_run t -> failfast_post w r w'.
Proof.
  intros Hl Ht. exists t. split; first done. left.
  intros argv dir code Hin. rewrite Forall_forall in Ht.
  apply list_elem_of_In, Ht in Hin. destruct Hin.
Qed.

Lemma failfast_ret {A} (a : A) : failfast (ret a).
Proof. intros w. by apply (failfast_step _ _ _ []). Qed.

Lemma failfast_lift {A} (r : result A) : failfast (lift r).
Proof. intros w. by apply (failfast_step _ _ _ []). Qed.

Lemma failfast_bind {A B} (m : M A) (f : A -> M B) :
  failfast m -> (forall a, failfast (f a)) -> failfast (bind m f).
Proof.
  intros Hm Hf w. specialize (Hm w). unfold bind.
  destruct (m w) as [[a|e] w1]; cbn in *.
  2:{ destruct Hm as (t & Hl & [Hq|(argv & dir & code & t' & Ht & Hc & Hq & [= ->])]);
        exists t; (split; first done); [by left|].
      right. by exists argv, dir, code, t'. }
  destruct Hm as (t1 & Hl1 & [Hq1|(? & ? & ? & ? & _ & _ & _ & [=])]).
  specialize (Hf a w1).
  destruct (f a w1) as [r w2]; cbn in *.
  destruct Hf as (t2 & Hl2 & Hq2).
  exists (t2 ++ t1)%list. split.
  { by rewrite Hl2, Hl1, app_assoc. }
  destruct Hq2 as [Hq2|(argv & dir & code & t' & -> & Hc & Hq' & ->)].
  - left. by apply quiet_app.
  - right. exists argv, dir, code, (t' ++ t1)%list.
    split_and!; try done. by apply quiet_app.
Qed.

Lemma failfast_if {A} (b : bool) (m1 m2 : M A) :
  failfast m1 -> failfast m2 -> failfast (if b then m1 else m2).
Proof. by destruct b. Qed.

Lemma failfast_echo s : failfast (echo s).
Proof.
  intros w. apply (failfast_step _ _ _ [EEcho s]); first done.
  by repeat constructor.
Qed.

Lemma failfast_path_exists p : failfast (path_exists host p).
Proof. intros w. by apply (failfast_step _ _ _ []). Qed.

Lemma failfast_subprocess_run argv dir :
  failfast (subprocess_run host argv dir).
Proof.
  intros w. unfold subprocess_run.
  destruct (tool host argv (abspath host dir) (fs w)) as [code f'].
  exists [ERun argv (abspath host dir) code].
  destruct (Z.eqb_spec code 0) as [->|Hne]; cbn; (split; first done).
  - left. intros ? ? ? [[= _ _ <-]|[]]. done.
  - right. exists argv, (abspath host dir), code, [].
    split_and!; try done. apply quiet_nil.
Qed.

Lemma failfast_mkdirs made todo : failfast (mkdirs made todo).
Proof.
  revert made. induction todo as [|c rest IH]; intros made.
  - apply failfast_ret.
  - cbn [mkdirs]. apply failfast_bind; last by (intros; apply IH).
    intros w.
    destruct (lookup_node (fs w) (made ++ [c])%list) as [[|c0]|] eqn:E;
      cbn.
    + by apply (failfast_step _ _ _ []).
    + destruct rest; by apply (failfast_step _ _ _ []).
    + apply (failfast_step _ _ _ [EMkdir (made ++ [c])%list]); first done.
      by repeat constructor.
Qed.

Lemma failfast_open p md : failfast (open_ host p md).
Proof.
  intros w. unfold open_. destruct md.
  - destruct (lookup_node _ _) as [[|?]|];
      by apply (failfast_step _ _ _ []).
  - destruct (lookup_node (fs w) (abspath host p)) as [[|?]|];
      try (by apply (failfast_step _ _ _ []));
      destruct (lookup_node (fs w) (parent _)) as [[|?]|];
      try (by apply (failfast_step _ _ _ []));
      (apply (failfast_step _ _ _ [ETruncate (abspath host p)]);
       [done | by repeat constructor]).
Qed.

Lemma failfast_fwrite f c : failfast (fwrite f c).
Proof.
  intros w. unfold fwrite. destruct (h_mode f).
  - by apply (failfast_step _ _ _ []).
  - apply (failfast_step _ _ _ [EWrite (h_path f) c]); first done.
    by repeat constructor.
Qed.

Lemma failfast_fread f : failfast (fread host f).
Proof.
  intros w. unfold fread.
  destruct (fs w !! h_path f) as [[|[?|?]]|];
    by apply (failfast_step _ _ _ []).
Qed.

Lemma failfast_tomlkit_load f : failfast (tomlkit_load host f).
Proof.
  intros w. unfold tomlkit_load.
  destruct (fs w !! h_path f) as [[|[s|?]]|];
    try (by apply (failfast_step _ _ _ [])).
  destruct (toml_loads host s); by apply (failfast_step _ _ _ []).
Qed.

Lemma failfast_unlink p : failfast (unlink_missing_ok host p).
Proof.
  intros w. unfold unlink_missing_ok.
  destruct (lookup_node _ _) as [[|?]|];
    try (by apply (failfast_step _ _ _ [])).
  apply (failfast_step _ _ _ [EUnlink (abspath host p)]); first done.
  by repeat constructor.
Qed.

Lemma failfast_for_each {A} (l : list A) (body : A -> M unit) :
  (forall x, failfast (body x)) -> failfast (for_each l body).
Proof.
  intros Hb. induction l as [|x l IH]; cbn [for_each].
  - apply failfast_ret.
  - apply failfast_bind; [apply Hb | by intros].
Qed.

End FailFast.

Create HintDb failfast.

#[local] Hint Resolve failfast_ret failfast_lift failfast_echo
  failfast_path_exists failfast_subprocess_run failfast_mkdirs failfast_open
  failfast_fwrite failfast_fread failfast_tomlkit_load failfast_unlink
  : failfast.

Ltac failfast_steps :=
  repeat first
    [ solve [auto with failfast]
    | apply failfast_bind; [|intros ?]
    | apply failfast_if ].

Section FailFastSteps.

Variable host : Host.

Lemma failfast_rewrite_manifest p edit :
  failfast (rewrite_manifest host p edit).
Proof. unfold rewrite_manifest. failfast_steps. Qed.

Lemma failfast_create_package pkg_dir :
  failfast (create_package host pkg_dir).
Proof. unfold create_package. failfast_steps. Qed.

Lemma failfast_setup_src script_path pkg_dir pkg_name :
  failfast (setup_src host script_path pkg_dir pkg_name).
Proof.
  unfold setup_src, mkdir_parents, read_text, write_text. failfast_steps.
Qed.

Lemma failfast_handle_readme script_path pkg_dir bin_name :
  failfast (handle_readme host script_path pkg_dir bin_name).
Proof. unfold handle_readme, write_text. failfast_steps. Qed.

Lemma failfast_update_local_pyproject pkg_dir pkg_name bin_name :
  failfast (update_local_pyproject host pkg_dir pkg_name bin_name).
Proof.
  rewrite update_local_pyproject_shape. apply failfast_rewrite_manifest.
Qed.

Lemma failfast_git_setup pkg_dir : failfast (git_setup host pkg_dir).
Proof. unfold git_setup, git_init_repo, initial_commit. failfast_steps. Qed.

Lemma failfast_setup_umbrella path : failfast (setup_umbrella host path).
Proof. unfold setup_umbrella. failfast_steps. Qed.

Lemma failfast_update_umbrella_deps_bin p pkg_name bin_name git_url :
  failfast (update_umbrella_deps_bin host p pkg_name bin_name git_url).
Proof.
  rewrite update_umbrella_deps_bin_shape. apply failfast_rewrite_manifest.
Qed.

Lemma failfast_register_umbrella register giturl_pattern pkg_name bin_name :
  failfast (register_umbrella host register giturl_pattern pkg_name bin_name).
Proof.
  unfold register_umbrella. destruct (truthy register).
  - apply failfast_bind; first apply failfast_setup_umbrella.
    intros pp. apply failfast_bind; first apply failfast_lift.
    intros url. apply failfast_update_umbrella_deps_bin.
  - apply failfast_ret.
Qed.

Lemma failfast_migrate_one register giturl_pattern script :
  failfast (migrate_one host register giturl_pattern script).
Proof.
  unfold migrate_one.
  apply failfast_bind; first apply failfast_echo. intros _.
  apply failfast_bind; first apply failfast_create_package. intros _.
  apply failfast_bind; first apply failfast_setup_src. intros _.
  apply failfast_bind; first apply failfast_handle_readme. intros _.
  apply failfast_bind; first apply failfast_update_local_pyproject.
  intros _.
  apply failfast_bind; first apply failfast_git_setup. intros _.
  apply failfast_register_umbrella.
Qed.

End FailFastSteps.

Lemma failfast_migrate host scripts register giturl_pattern :
  failfast (migrate host scripts register giturl_pattern).
Proof. apply failfast_for_each. intros x. apply failfast_migrate_one. Qed.

Lemma new_events_app w w' t :
  log w' = (t ++ log w)%list -> new_events w w' = t.
Proof.
  intros H. unfold new_events. rewrite H, length_app.
  replace (length t + length (log w) - length (log w)) with (length t) by lia.
  by rewrite take_app_length.
Qed.

(** C7. Whenever an external tool invoked during a run returns a nonzero
    exit status, that invocation is the last thing the run does (no retry,
    no later step, no later script), every earlier invocation had
    succeeded, and the run ends by raising [CalledProcessError] for that
    very command and status. *)
Theorem tool_failure_aborts_run host scripts register giturl_pattern w
    argv dir code :
  let run := migrate host scripts register giturl_pattern w in
  In (ERun argv dir code) (new_events w run.2) ->
  code <> 0%Z ->
  exists earlier,
    log run.2 = ERun argv dir code :: (earlier ++ log w)%list /\
    quiet earlier /\
    run.1 = Raise (CalledProcessError argv code).
Proof.
  intros run Hin Hcode.
  destruct (failfast_migrate host scripts register giturl_pattern w)
    as (t & Hl & Ht).
  fold run in Hl, Ht. rewrite (new_events_app _ _ _ Hl) in Hin.
  destruct Ht as [Hq|(argv' & dir' & code' & t' & -> & Hc & Hq & Hr)].
  - by apply Hq in Hin.
  - destruct Hin as [[= -> -> ->]|Hin]; last by apply Hq in Hin.
    exists t'. by rewrite Hl.
Qed.

Lemma tool_failure_aborts_run_witness :
  let host := Demo.demo_host false 1 in
  let run := migrate host ["hello-world.py"; "say_bye.py"] None
               default_giturl_pattern Demo.start in
  exists earlier,
    log run.2
    = ERun ["git"; "init"] ["work"; "hello-world"] 1
        :: (earlier ++ log Demo.start)%list /\
    quiet earlier /\
    run.1 = Raise (CalledProcessError ["git"; "init"] 1).
Proof.
  intros host run.
  refine (tool_failure_aborts_run host ["hello-world.py"; "say_bye.py"] None
            default_giturl_pattern Demo.start ["git"; "init"]
            ["work"; "hello-world"] 1 _ _).
  - vm_compute. left. reflexivity.
  - discriminate.
Defined.

(** ** Version control (lines 135-143) *)

(** C2, the defect. On a fresh migration where [uv init] does not create
    [.gitignore] (it runs inside an existing work tree), [migrate] reaches
    line 140, opens the missing [.gitignore] for reading and stops with
    [FileNotFoundError]: the file is not created, nothing is committed. *)
Theorem fresh_migration_stops_at_gitignore :
  let run := migrate Demo.plain_host ["hello-world.py"] None
               default_giturl_pattern Demo.start in
  run.1 = Raise (OSError FileNotFound ["work"; "hello-world"; ".gitignore"]) /\
  fs run.2 !! ["work"; "hello-world"; ".gitignore"] = None /\
  hd_error (log run.2) = Some (ERun ["git"; "init"] ["work"; "hello-world"] 0).
Proof. vm_compute. done. Qed.

(** The same for every host and world: when [.gitignore] is missing, the
    step raises and leaves the world as it is. *)
Lemma initial_commit_raises host pkg_dir w :
  lookup_node (fs w) (abspath host (pkg_dir // ".gitignore")) = None ->
  initial_commit host pkg_dir w
  = (Raise (OSError FileNotFound (abspath host (pkg_dir // ".gitignore"))), w).
Proof. intros H. rewrite initial_commit_spec. by rewrite H. Qed.

(** ** The umbrella update (lines 35-55) *)

Lemma manifest_at_written u d w : manifest_at (written u d w) u = Some d.
Proof. unfold manifest_at, written. cbn [fs]. by rewrite lookup_insert_eq. Qed.

Lemma has_entry_point_target pkg_name bin_name d :
  has_entry_point pkg_name bin_name d ->
  script_target d bin_name = Some (TStr (entry_point pkg_name)).
Proof.
  intros (p & m & Hp & Hs & Hb). unfold script_target. by rewrite Hp, Hs.
Qed.

(** C5, as the code has it. The update loads the document, reads the
    dependency list (empty when absent), appends the composed string
    exactly when no item of the list is that very string, sets the entry
    point, and writes the document back in every case. *)
Theorem umbrella_update_appends_if_absent host pp pkg_name bin_name git_url
    w d p l m :
  let u := abspath host pp in
  let entry := dep_entry pkg_name git_url in
  read_doc host (fs w) u = Some d ->
  lookup_node (fs w) (parent u) = Some Dir ->
  d !! "project" = Some (TTab p) ->
  deps_of p = TArr l ->
  scripts_of p m ->
  exists d',
    update_umbrella_deps_bin host pp pkg_name bin_name git_url w
    = (Ok tt, written u d' w) /\
    (In (TStr entry) l -> dependencies d' = Some (TArr l)) /\
    (~ In (TStr entry) l ->
     dependencies d' = Some (TArr (l ++ [TStr entry]))) /\
    log (written u d' w) = EWrite u (TomlDoc d') :: ETruncate u :: log w.
Proof.
  intros u entry Hr Hdir Hp Hl Hm.
  rewrite update_umbrella_deps_bin_shape.
  destruct (existsb (eq_str entry) l) eqn:E.
  - apply existsb_eq_str in E.
    assert (p !! "dependencies" = Some (TArr l)) as Hd.
    { unfold deps_of in Hl. destruct (p !! "dependencies"); cbn in Hl;
        first by subst. injection Hl as <-. destruct E. }
    eexists. split.
    { eapply rewrite_manifest_run; try done. unfold umbrella_edit.
      erewrite add_dependency_present; try done.
      - cbn. by apply set_entry_point_total.
      - rewrite Hl. cbn. f_equal. by apply existsb_eq_str. }
    split_and!; try done.
    unfold dependencies. rewrite lookup_insert_eq.
    by rewrite lookup_insert_ne.
  - assert (~ In (TStr entry) l) as Hn.
    { intros Hin. apply existsb_eq_str in Hin. congruence. }
    eexists. split.
    { eapply rewrite_manifest_run; try done. unfold umbrella_edit.
      erewrite add_dependency_absent; try done. cbn.
      apply set_entry_point_total; first apply lookup_insert_eq.
      by apply scripts_of_insert_ne. }
    split_and!; try done.
    intros _. unfold dependencies. rewrite lookup_insert_eq.
    rewrite lookup_insert_ne by done. by rewrite lookup_insert_eq.
Qed.

Lemma umbrella_update_appends_if_absent_witness :
  let host := Demo.vcs_host in
  let pp := Path "tools" // "pyproject.toml" in
  let u := abspath host pp in
  let entry := dep_entry "hello_world" "git+https://example.org/hello-world" in
  let w := Demo.with_umbrella in
  exists d',
    update_umbrella_deps_bin host pp "hello_world" "hello-world"
      "git+https://example.org/hello-world" w
    = (Ok tt, written u d' w) /\
    (In (TStr entry) [] -> dependencies d' = Some (TArr [])) /\
    (~ In (TStr entry) [] ->
     dependencies d' = Some (TArr ([] ++ [TStr entry]))) /\
    log (written u d' w) = EWrite u (TomlDoc d') :: ETruncate u :: log w.
Proof.
  intros host pp u entry w.
  refine (umbrella_update_appends_if_absent host pp "hello_world"
            "hello-world" "git+https://example.org/hello-world" w
            (Demo.fresh_manifest "tools") (Demo.fresh_project "tools")
            [] ∅ _ _ _ _ _).
  - vm_compute. reflexivity.
  - vm_compute. reflexivity.
  - vm_compute. reflexivity.
  - vm_compute. reflexivity.
  - right. split; [vm_compute; reflexivity | reflexivity].
Defined.

(** C5, the counterexample. Registering [hello-world] again in an umbrella
    that already lists it leaves the document exactly as it was, and the
    manifest is written back all the same. *)
Lemma unchanged_manifest_is_written_back :
  ~ writes_only_if_changed Demo.vcs_host.
Proof.
  intros H.
  pose (pp := Path "tools" // "pyproject.toml").
  pose (url := "git+https://github.com/brettviren/hello-world").
  pose (m := update_umbrella_deps_bin Demo.vcs_host pp "hello_world"
               "hello-world" url).
  specialize (H pp "hello_world" "hello-world" url Demo.registered
                (m Demo.registered).2).
  assert (new_events Demo.registered (m Demo.registered).2 <> []) as Hne.
  { vm_compute. discriminate. }
  apply Hne, H.
  - refine (run_ok_eq m Demo.registered tt _). vm_compute. reflexivity.
  - vm_compute. reflexivity.
Qed.

(** C6. A successful registration changes one file, the umbrella manifest;
    in its document every key other than [project] keeps its value, and in
    the project table every key other than [dependencies] and [scripts]
    keeps its value. *)
Theorem umbrella_update_frame host pp pkg_name bin_name git_url w w' :
  update_umbrella_deps_bin host pp pkg_name bin_name git_url w = (Ok tt, w') ->
  exists d d' p p',
    read_doc host (fs w) (abspath host pp) = Some d /\
    manifest_at w' (abspath host pp) = Some d' /\
    d !! "project" = Some (TTab p) /\
    d' !! "project" = Some (TTab p') /\
    (forall k, k <> "project" -> d' !! k = d !! k) /\
    (forall k, k <> "dependencies" -> k <> "scripts" -> p' !! k = p !! k) /\
    (forall q, q <> abspath host pp -> fs w' !! q = fs w !! q).
Proof.
  rewrite update_umbrella_deps_bin_shape. intros H.
  apply rewrite_manifest_ok in H as (d & d' & Hr & He & _ & ->).
  apply umbrella_edit_inv in He as (p & p1 & m & Hp & _ & Hs & ->).
  exists d, (<["project" :=
                TTab (<["scripts" :=
                        TTab (<[bin_name := TStr (entry_point pkg_name)]> m)]>
                      p1)]> d), p,
    (<["scripts" := TTab (<[bin_name := TStr (entry_point pkg_name)]> m)]> p1).
  split_and!; try done.
  - apply manifest_at_written.
  - apply lookup_insert_eq.
  - intros k Hk. by rewrite lookup_insert_ne.
  - intros k Hk1 Hk2. rewrite lookup_insert_ne by done.
    destruct Hs as [[_ ->]|(l & _ & _ & ->)]; first done.
    by rewrite lookup_insert_ne.
  - intros q Hq. unfold written. cbn [fs]. by rewrite lookup_insert_ne.
Qed.

Lemma umbrella_update_frame_witness :
  let host := Demo.vcs_host in
  let pp := Path "tools" // "pyproject.toml" in
  let w' := (update_umbrella_deps_bin host pp "say_bye" "say_bye"
               "git+https://example.org/say_bye" Demo.registered).2 in
  exists d d' p p',
    read_doc host (fs Demo.registered) (abspath host pp) = Some d /\
    manifest_at w' (abspath host pp) = Some d' /\
    d !! "project" = Some (TTab p) /\
    d' !! "project" = Some (TTab p') /\
    (forall k, k <> "project" -> d' !! k = d !! k) /\
    (forall k, k <> "dependencies" -> k <> "scripts" -> p' !! k = p !! k) /\
    (forall q, q <> abspath host pp ->
               fs w' !! q = fs Demo.registered !! q).
Proof.
  intros host pp w'.
  refine (umbrella_update_frame host pp "say_bye" "say_bye"
            "git+https://example.org/say_bye" Demo.registered w' _).
  refine (run_ok_eq (update_umbrella_deps_bin host pp "say_bye" "say_bye"
                       "git+https://example.org/say_bye")
            Demo.registered tt _).
  vm_compute. reflexivity.
Defined.

(** ** Entry points (lines 47-52 and 127-130) *)

Lemma log_ext_refl w : log_ext w w.
Proof. by exists []. Qed.

Lemma log_ext_trans w1 w2 w3 : log_ext w1 w2 -> log_ext w2 w3 -> log_ext w1 w3.
Proof.
  intros [t1 H1] [t2 H2]. exists (t2 ++ t1)%list.
  by rewrite H2, H1, app_assoc.
Qed.

Lemma failfast_ext {A} (m : M A) w r w' :
  failfast m -> m w = (r, w') -> log_ext w w'.
Proof.
  intros Hm Hr. destruct (Hm w) as (t & Hl & _). rewrite Hr in Hl. by exists t.
Qed.

Lemma new_events_mono e w0 w1 w2 w3 :
  log_ext w0 w1 -> log_ext w1 w2 -> log_ext w2 w3 ->
  In e (new_events w1 w2) -> In e (new_events w0 w3).
Proof.
  intros [t1 H1] [t2 H2] [t3 H3] Hin.
  rewrite (new_events_app _ _ _ H2) in Hin.
  rewrite (new_events_app w0 w3 (t3 ++ t2 ++ t1)).
  - apply in_or_app. right. apply in_or_app. by left.
  - by rewrite H3, H2, H1, !app_assoc.
Qed.

(** C4. Every successful iteration of [migrate] writes the package's own
    manifest with [project.scripts] mapping the command name to
    ["<pkg_name>.main:main"], and with [--register] leaves the umbrella
    manifest with the same mapping.  The value that was stored under the
    key before plays no role: with any scripts table, setting the entry
    point succeeds and yields that mapping. *)
Theorem entry_point_always_set host register giturl_pattern script w w' :
  let bin_name := get_bin_name (Path script) in
  let pkg_name := get_pkg_name (Path script) in
  let pp_path := abspath host (Path_cwd host // bin_name // "pyproject.toml") in
  migrate_one host register giturl_pattern script w = (Ok tt, w') ->
  (exists d,
     In (EWrite pp_path (TomlDoc d)) (new_events w w') /\
     script_target d bin_name = Some (TStr (entry_point pkg_name))) /\
  (forall path, truthy register = Some path ->
     exists d,
       manifest_at w' (umbrella_manifest host path) = Some d /\
       script_target d bin_name = Some (TStr (entry_point pkg_name))) /\
  (forall d p m old,
     d !! "project" = Some (TTab p) -> p !! "scripts" = Some (TTab m) ->
     m !! bin_name = old ->
     exists d',
       set_entry_point d pkg_name bin_name = Ok d' /\
       script_target d' bin_name = Some (TStr (entry_point pkg_name))).
Proof.
  intros bin_name pkg_name pp_path H.
  apply migrate_one_ok_inv in H
    as (w1 & w2 & w3 & w4 & w5 & w6 & H1 & H2 & H3 & H4 & H5 & H6 & H7).
  fold bin_name pkg_name in H1, H2, H3, H4, H5, H6, H7.
  split_and!.
  - pose proof H5 as H5'. rewrite update_local_pyproject_shape in H5'.
    apply rewrite_manifest_ok in H5' as (d & d' & _ & He & _ & Hw5).
    exists d'. split.
    + apply (new_events_mono _ w w4 w5 w').
      * eapply log_ext_trans; first by eapply failfast_ext, H1; apply failfast_echo.
        eapply log_ext_trans;
          first by eapply failfast_ext, H2; apply failfast_create_package.
        eapply log_ext_trans;
          first by eapply failfast_ext, H3; apply failfast_setup_src.
        by eapply failfast_ext, H4; apply failfast_handle_readme.
      * by eapply failfast_ext, H5; apply failfast_update_local_pyproject.
      * eapply log_ext_trans;
          first by eapply failfast_ext, H6; apply failfast_git_setup.
        by eapply failfast_ext, H7; apply failfast_register_umbrella.
      * rewrite (new_events_app w4 w5
                   [EWrite pp_path (TomlDoc d'); ETruncate pp_path]);
          [by left | by rewrite Hw5].
    + by apply has_entry_point_target, (local_edit_entry_point d).
  - intros path Hreg.
    eapply register_umbrella_ok in H7
      as (w7 & d & git_url & d' & _ & _ & _ & He & ->); last exact Hreg.
    exists d'. split; first apply manifest_at_written.
    by apply has_entry_point_target, (umbrella_edit_entry_point d _ _ git_url).
  - intros d p m old Hp Hs _.
    eexists. split.
    + apply set_entry_point_total; [exact Hp | by left].
    + unfold script_target. by rewrite !lookup_insert_eq.
Qed.

Lemma entry_point_always_set_witness :
  let host := Demo.vcs_host in
  let script := "hello-world.py" in
  let w := Demo.registered in
  let w' := (migrate_one host (Some "tools") default_giturl_pattern script
               w).2 in
  let bin_name := get_bin_name (Path script) in
  let pkg_name := get_pkg_name (Path script) in
  let pp_path := abspath host (Path_cwd host // bin_name // "pyproject.toml") in
  (exists d,
     In (EWrite pp_path (TomlDoc d)) (new_events w w') /\
     script_target d bin_name = Some (TStr (entry_point pkg_name))) /\
  (forall path, truthy (Some "tools") = Some path ->
     exists d,
       manifest_at w' (umbrella_manifest host path) = Some d /\
       script_target d bin_name = Some (TStr (entry_point pkg_name))) /\
  (forall d p m old,
     d !! "project" = Some (TTab p) -> p !! "scripts" = Some (TTab m) ->
     m !! bin_name = old ->
     exists d',
       set_entry_point d pkg_name bin_name = Ok d' /\
       script_target d' bin_name = Some (TStr (entry_point pkg_name))).
Proof.
  intros host script w w'.
  refine (entry_point_always_set host (Some "tools") default_giturl_pattern
            script w w' _).
  refine (run_ok_eq (migrate_one host (Some "tools") default_giturl_pattern
                       script) w tt _).
  vm_compute. reflexivity.
Defined.

(** ** Files written by the scaffolding (lines 97-114) *)

Section Files.

Variable host : Host.


Lemma lookup_node_nonempty f q : q <> [] -> lookup_node f q = f !! q.
Proof. by destruct q. Qed.





Lemma read_text_inv p w s w' :
  read_text host p w = (Ok s, w') ->
  w' = w /\
  exists c, fs w !! abspath host p = Some (File c) /\ s = content_text host c.
Proof.
  unfold read_text. intros H.
  apply bind_ok_inv in H as (h & w1 & Ho & H).
  apply open_r_inv in Ho as (-> & -> & c & Hc).
  apply lookup_node_file in Hc. unfold fread in H. cbn [h_path] in H.
  rewrite Hc in H. destruct c; injection H as <- <-; eauto.
Qed.

Lemma write_text_inv p s w r w' :
  write_text host p s w = (r, w') ->
  (r = Ok tt /\
   w' = World (<[abspath host p := File (Text s)]> (fs w))
          (EWrite (abspath host p) (Text s)
             :: ETruncate (abspath host p) :: log w)) \/
  ((exists e, r = Raise e) /\ w' = w).
Proof.
  unfold write_text, bind. intros H.
  destruct (open_ host p ModeW w) as [[h|e] w1] eqn:Ho.
  - apply open_w_inv in Ho as (-> & -> & _ & _).
    unfold fwrite in H. cbn in H. injection H as <- <-. left.
    split; first done. unfold emit, set_node. cbn.
    by rewrite insert_insert_eq.
  - apply open_w_raise in Ho as ->. injection H as <- <-. right. eauto.
Qed.




End Files.



(** * Further properties of the code *)

(** ** Manifest updates: repetition, frame and errors *)

Section ManifestExtras.

Variable host : Host.

Lemma parent_ne (q : fspath) : q <> [] -> parent q <> q.
Proof.
  intros Hq E. unfold parent in E. apply (f_equal length) in E.
  destruct q as [|c q] using rev_ind; first done.
  rewrite removelast_last, length_app in E. cbn in E. lia.
Qed.

Lemma lookup_node_insert_ne (f : filesys) q u n :
  q <> u -> lookup_node (<[u := n]> f) q = lookup_node f q.
Proof. intros Hq. destruct q; first done. cbn. by rewrite lookup_insert_ne. Qed.

Lemma read_doc_nonempty (f : filesys) q d :
  read_doc host f q = Some d -> q <> [].
Proof. unfold read_doc. by destruct q. Qed.

(** An update whose edit raises leaves the world as it is. *)
Lemma rewrite_manifest_fail p edit w d e :
  read_doc host (fs w) (abspath host p) = Some d ->
  edit d = Raise e ->
  rewrite_manifest host p edit w = (Raise e, w).
Proof.
  intros Hd He. unfold rewrite_manifest.
  assert (exists c, lookup_node (fs w) (abspath host p) = Some (File c))
    as [c Hc].
  { unfold read_doc in Hd.
    destruct (lookup_node _ _) as [[|c]|]; try discriminate. eauto. }
  erewrite bind_ok; last by (unfold open_; rewrite Hc).
  erewrite bind_ok; last by apply tomlkit_load_run.
  erewrite bind_raise; first done. unfold lift. by rewrite He.
Qed.

(** With an edit that is a fixed point on its own results, a second update
    succeeds and writes back the document the file already holds. *)
Lemma rewrite_manifest_twice p edit w w1 :
  (forall d d', edit d = Ok d' -> edit d' = Ok d') ->
  rewrite_manifest host p edit w = (Ok tt, w1) ->
  exists d1,
    manifest_at w1 (abspath host p) = Some d1 /\
    rewrite_manifest host p edit w1
    = (Ok tt, written (abspath host p) d1 w1) /\
    fs (written (abspath host p) d1 w1) = fs w1.
Proof.
  intros Hidem H.
  apply rewrite_manifest_ok in H as (d & d1 & Hr & He & Hdir & ->).
  pose proof (read_doc_nonempty _ _ _ Hr) as Hne.
  exists d1. split; first apply manifest_at_written. split.
  - apply (rewrite_manifest_run host p edit _ d1 d1).
    + unfold read_doc, written. cbn [fs].
      rewrite (lookup_node_nonempty _ _ Hne). by rewrite lookup_insert_eq.
    + by eapply Hidem.
    + unfold written. cbn [fs].
      rewrite lookup_node_insert_ne; [done | by apply parent_ne].
  - unfold written. cbn [fs]. by rewrite insert_insert_eq.
Qed.


Lemma local_edit_idem d pkg_name bin_name d' :
  local_edit d pkg_name bin_name = Ok d' ->
  local_edit d' pkg_name bin_name = Ok d'.
Proof.
  intros H. apply local_edit_inv in H as (p & m & Hp & _ & ->).
  set (M := <[bin_name := TStr (entry_point pkg_name)]> m).
  set (P := <["scripts" := TTab M]> (<["readme" := org_readme]> p)).
  assert (<["readme" := org_readme]> P = P) as HP.
  { apply insert_id. unfold P. rewrite lookup_insert_ne by done.
    apply lookup_insert_eq. }
  unfold local_edit. cbn. rewrite lookup_insert_eq. cbn. rewrite HP.
  rewrite (set_entry_point_total _ _ _ P M);
    [|apply lookup_insert_eq|left; apply lookup_insert_eq].
  unfold P, M. by rewrite !insert_insert_eq.
Qed.


(** X2. The same for the package's own manifest: a second update right
    after a successful one writes back the document the file holds. *)
Theorem local_update_twice pkg_dir pkg_name bin_name w w1 :
  let pp := pkg_dir // "pyproject.toml" in
  update_local_pyproject host pkg_dir pkg_name bin_name w = (Ok tt, w1) ->
  exists d1,
    manifest_at w1 (abspath host pp) = Some d1 /\
    update_local_pyproject host pkg_dir pkg_name bin_name w1
    = (Ok tt, written (abspath host pp) d1 w1) /\
    fs (written (abspath host pp) d1 w1) = fs w1.
Proof.
  intros pp. rewrite !update_local_pyproject_shape.
  apply rewrite_manifest_twice. intros d d'. apply local_edit_idem.
Qed.

(** X3. A successful update of the package's own manifest changes that one
    file only.  In its document, [project.readme] is the Org readme table
    and [project.scripts] maps the command to its entry point; every other
    top-level key, every other project key and every other script keeps
    its value. *)
Theorem local_update_frame pkg_dir pkg_name bin_name w w' :
  let q := abspath host (pkg_dir // "pyproject.toml") in
  update_local_pyproject host pkg_dir pkg_name bin_name w = (Ok tt, w') ->
  exists d d' p p' m m',
    read_doc host (fs w) q = Some d /\
    manifest_at w' q = Some d' /\
    d !! "project" = Some (TTab p) /\
    d' !! "project" = Some (TTab p') /\
    scripts_of p m /\
    p' !! "scripts" = Some (TTab m') /\
    p' !! "readme" = Some org_readme /\
    m' !! bin_name = Some (TStr (entry_point pkg_name)) /\
    (forall k, k <> bin_name -> m' !! k = m !! k) /\
    (forall k, k <> "readme" -> k <> "scripts" -> p' !! k = p !! k) /\
    (forall k, k <> "project" -> d' !! k = d !! k) /\
    (forall x, x <> q -> fs w' !! x = fs w !! x).
Proof.
  intros q. rewrite update_local_pyproject_shape. intros H.
  apply rewrite_manifest_ok in H as (d & d' & Hr & He & _ & ->).
  apply local_edit_inv in He as (p & m & Hp & Hm & ->).
  exists d, (<["project" :=
                TTab (<["scripts" :=
                        TTab (<[bin_name := TStr (entry_point pkg_name)]> m)]>
                      (<["readme" := org_readme]> p))]> d), p,
    (<["scripts" := TTab (<[bin_name := TStr (entry_point pkg_name)]> m)]>
       (<["readme" := org_readme]> p)), m,
    (<[bin_name := TStr (entry_point pkg_name)]> m).
  split_and!; try done.
  - apply manifest_at_written.
  - apply lookup_insert_eq.
  - apply lookup_insert_eq.
  - rewrite lookup_insert_ne by done. apply lookup_insert_eq.
  - apply lookup_insert_eq.
  - intros k Hk. by rewrite lookup_insert_ne.
  - intros k Hk1 Hk2. by rewrite !lookup_insert_ne.
  - intros k Hk. by rewrite lookup_insert_ne.
  - intros x Hx. unfold written. cbn [fs]. by rewrite lookup_insert_ne.
Qed.

(** X4. A manifest without a [project] table: the umbrella update raises
    [KeyError('project')] at line 45, the package update at line 122, and
    both leave the world as it is. *)
Theorem update_without_project_raises pp pkg_dir pkg_name bin_name git_url
    w d :
  d !! "project" = None ->
  (read_doc host (fs w) (abspath host pp) = Some d ->
   update_umbrella_deps_bin host pp pkg_name bin_name git_url w
   = (Raise (KeyError "project"), w)) /\
  (read_doc host (fs w) (abspath host (pkg_dir // "pyproject.toml")) = Some d ->
   update_local_pyproject host pkg_dir pkg_name bin_name w
   = (Raise (KeyError "project"), w)).
Proof.
  intros Hp. split; intros Hr.
  - rewrite update_umbrella_deps_bin_shape.
    apply (rewrite_manifest_fail _ _ _ d); first done.
    unfold umbrella_edit, add_dependency. cbn. by rewrite Hp.
  - rewrite update_local_pyproject_shape.
    apply (rewrite_manifest_fail _ _ _ d); first done.
    unfold local_edit. cbn. by rewrite Hp.
Qed.

End ManifestExtras.


Lemma local_update_twice_witness :
  let host := Demo.vcs_host in
  let pkg_dir := Path_cwd host // "hello-world" in
  let pp := pkg_dir // "pyproject.toml" in
  let w1 := (update_local_pyproject host pkg_dir "hello_world" "hello-world"
               Demo.scaffolded).2 in
  exists d1,
    manifest_at w1 (abspath host pp) = Some d1 /\
    update_local_pyproject host pkg_dir "hello_world" "hello-world" w1
    = (Ok tt, written (abspath host pp) d1 w1) /\
    fs (written (abspath host pp) d1 w1) = fs w1.
Proof.
  intros host pkg_dir pp w1.
  refine (local_update_twice host pkg_dir "hello_world" "hello-world"
            Demo.scaffolded w1 _).
  refine (run_ok_eq
            (update_local_pyproject host pkg_dir "hello_world" "hello-world")
            Demo.scaffolded tt _).
  vm_compute. reflexivity.
Defined.

Lemma local_update_frame_witness :
  let host := Demo.vcs_host in
  let pkg_dir := Path_cwd host // "hello-world" in
  let q := abspath host (pkg_dir // "pyproject.toml") in
  let w := Demo.scaffolded in
  let w' := (update_local_pyproject host pkg_dir "hello_world" "hello-world"
               w).2 in
  exists d d' p p' m m',
    read_doc host (fs w) q = Some d /\
    manifest_at w' q = Some d' /\
    d !! "project" = Some (TTab p) /\
    d' !! "project" = Some (TTab p') /\
    scripts_of p m /\
    p' !! "scripts" = Some (TTab m') /\
    p' !! "readme" = Some org_readme /\
    m' !! "hello-world" = Some (TStr (entry_point "hello_world")) /\
    (forall k, k <> "hello-world" -> m' !! k = m !! k) /\
    (forall k, k <> "readme" -> k <> "scripts" -> p' !! k = p !! k) /\
    (forall k, k <> "project" -> d' !! k = d !! k) /\
    (forall x, x <> q -> fs w' !! x = fs w !! x).
Proof.
  intros host pkg_dir q w w'.
  refine (local_update_frame host pkg_dir "hello_world" "hello-world" w w' _).
  refine (run_ok_eq
            (update_local_pyproject host pkg_dir "hello_world" "hello-world")
            w tt _).
  vm_compute. reflexivity.
Defined.

Lemma update_without_project_raises_witness :
  let host := Demo.vcs_host in
  let pp := Path "tools" // "pyproject.toml" in
  let pkg_dir := Path "tools" in
  let w := Samples.bare_umbrella in
  (read_doc host (fs w) (abspath host pp) = Some ∅ ->
   update_umbrella_deps_bin host pp "hello_world" "hello-world" "url" w
   = (Raise (KeyError "project"), w)) /\
  (read_doc host (fs w) (abspath host (pkg_dir // "pyproject.toml")) = Some ∅ ->
   update_local_pyproject host pkg_dir "hello_world" "hello-world" w
   = (Raise (KeyError "project"), w)).
Proof.
  intros host pp pkg_dir w.
  refine (update_without_project_raises host pp pkg_dir "hello_world"
            "hello-world" "url" w ∅ _).
  reflexivity.
Defined.

(** ** The variant without entry point (lines 57-73) *)

Section Sibling.

Variable host : Host.

(** X5. [update_umbrella_deps], on a manifest whose project table has a
    dependency list (or none): when the composed entry is in the list it
    only reports so and writes nothing; otherwise it reports the addition
    and writes the document back with the entry appended and everything
    else, [project.scripts] included, as it was. *)
Theorem update_umbrella_deps_writes_if_absent pp pkg_name git_url w d p l :
  let u := abspath host pp in
  let entry := dep_entry pkg_name git_url in
  read_doc host (fs w) u = Some d ->
  lookup_node (fs w) (parent u) = Some Dir ->
  d !! "project" = Some (TTab p) ->
  deps_of p = TArr l ->
  (In (TStr entry) l ->
   update_umbrella_deps host pp pkg_name git_url w
   = (Ok tt, emit (EEcho (pkg_name ++ " already registered in umbrella.")) w))
  /\
  (~ In (TStr entry) l ->
   update_umbrella_deps host pp pkg_name git_url w
   = (Ok tt,
      written u
        (<["project" :=
            TTab (<["dependencies" := TArr (l ++ [TStr entry])]> p)]> d)
        (emit (EEcho ("Adding " ++ pkg_name ++ " to umbrella dependencies..."))
           w))).
Proof.
  intros u entry Hr Hdir Hp Hl.
  assert (exists c, lookup_node (fs w) u = Some (File c)) as [c Hc].
  { unfold read_doc in Hr.
    destruct (lookup_node _ _) as [[|c]|]; try discriminate. eauto. }
  assert (forall k : doc -> M unit,
            update_umbrella_deps host pp pkg_name git_url w
            = (present <- lift (py_in entry (TArr l)) ;;
               if negb present then
                 echo ("Adding " ++ pkg_name ++ " to umbrella dependencies...") ;;
                 data' <- lift (add_dependency d pkg_name git_url) ;;
                 f <- open_ host pp ModeW ;;
                 fwrite f (TomlDoc data')
               else echo (pkg_name ++ " already registered in umbrella."))%eff w)
    as Hshape.
  { intros _. unfold update_umbrella_deps.
    erewrite bind_ok; last by (unfold open_; fold u; rewrite Hc).
    erewrite bind_ok; last by apply tomlkit_load_run.
    erewrite bind_ok; last by (unfold lift; cbn; rewrite Hp).
    erewrite bind_ok; last by (unfold lift; cbn; fold (deps_of p); rewrite Hl).
    reflexivity. }
  rewrite (Hshape (fun _ => ret tt)). clear Hshape. split; intros Hin.
  - apply existsb_eq_str in Hin.
    erewrite bind_ok; last by (unfold lift; cbn; rewrite Hin).
    reflexivity.
  - assert (existsb (eq_str entry) l = false) as Hex.
    { destruct (existsb _ l) eqn:E; last done.
      by apply existsb_eq_str in E. }
    erewrite bind_ok; last by (unfold lift; cbn; rewrite Hex).
    cbn [negb].
    erewrite bind_ok; last reflexivity.
    erewrite bind_ok;
      last by (unfold lift; erewrite add_dependency_absent).
    erewrite bind_ok.
    2:{ apply open_w_run; cbn [fs emit]; fold u; [done | by rewrite Hc]. }
    unfold fwrite, written, emit, set_node. cbn. fold u.
    by rewrite insert_insert_eq.
Qed.

End Sibling.

Lemma update_umbrella_deps_writes_if_absent_witness :
  let host := Demo.vcs_host in
  let pp := Path "tools" // "pyproject.toml" in
  let u := abspath host pp in
  let w := Demo.with_umbrella in
  let d := Demo.fresh_manifest "tools" in
  let p := Demo.fresh_project "tools" in
  let entry := dep_entry "hello_world" "url" in
  (In (TStr entry) [] ->
   update_umbrella_deps host pp "hello_world" "url" w
   = (Ok tt,
      emit (EEcho ("hello_world" ++ " already registered in umbrella.")) w))
  /\
  (~ In (TStr entry) [] ->
   update_umbrella_deps host pp "hello_world" "url" w
   = (Ok tt,
      written u
        (<["project" :=
            TTab (<["dependencies" := TArr ([] ++ [TStr entry])]> p)]> d)
        (emit (EEcho ("Adding " ++ "hello_world" ++
                      " to umbrella dependencies...")) w))).
Proof.
  intros host pp u w d p entry.
  refine (update_umbrella_deps_writes_if_absent host pp "hello_world" "url"
            w d p [] _ _ _ _).
  - vm_compute. reflexivity.
  - vm_compute. reflexivity.
  - vm_compute. reflexivity.
  - vm_compute. reflexivity.
Defined.

(** ** Registration and the loop over the scripts *)

Section Loop.

Variable host : Host.


Lemma migrate_app scripts1 scripts2 register giturl_pattern w w1 :
  migrate host scripts1 register giturl_pattern w = (Ok tt, w1) ->
  migrate host (scripts1 ++ scripts2) register giturl_pattern w
  = migrate host scripts2 register giturl_pattern w1.
Proof.
  unfold migrate. revert w.
  induction scripts1 as [|s l IH]; intros w; cbn [for_each app].
  - by intros [= ->].
  - intros H. apply bind_ok_inv in H as ([] & w2 & H1 & H2).
    erewrite bind_ok; last exact H1. by apply IH.
Qed.

(** X7. The loop stops at the first script whose iteration raises, whatever
    the exception: the run ends with that exception in the world the failed
    iteration left, and no later script is looked at. *)
Theorem migrate_stops_at_first_raise before script after register
    giturl_pattern w w1 e w2 :
  migrate host before register giturl_pattern w = (Ok tt, w1) ->
  migrate_one host register giturl_pattern script w1 = (Raise e, w2) ->
  migrate host (before ++ script :: after) register giturl_pattern w
  = (Raise e, w2).
Proof.
  intros H1 H2. rewrite (migrate_app _ _ _ _ _ _ H1).
  unfold migrate. cbn [for_each]. by erewrite bind_raise.
Qed.

End Loop.

Lemma run_raise_eq {A} (m : M A) w e :
  (m w).1 = Raise e -> m w = (Raise e, (m w).2).
Proof. destruct (m w) as [r w']. cbn. by intros ->. Qed.


Lemma migrate_stops_at_first_raise_witness :
  let host := Demo.vcs_host in
  let run1 := migrate host ["hello-world.py"] None default_giturl_pattern
                Demo.with_umbrella in
  let run2 := migrate_one host None default_giturl_pattern "tools" run1.2 in
  migrate host (["hello-world.py"] ++ "tools" :: ["say_bye.py"]) None
    default_giturl_pattern Demo.with_umbrella
  = (Raise (OSError IsADirectory ["work"; "tools"]), run2.2).
Proof.
  intros host run1 run2.
  refine (migrate_stops_at_first_raise host ["hello-world.py"] "tools"
            ["say_bye.py"] None default_giturl_pattern Demo.with_umbrella
            run1.2 (OSError IsADirectory ["work"; "tools"]) run2.2 _ _).
  - refine (run_ok_eq (migrate host ["hello-world.py"] None
                         default_giturl_pattern) Demo.with_umbrella tt _).
    vm_compute. reflexivity.
  - refine (run_raise_eq (migrate_one host None default_giturl_pattern
                            "tools") run1.2 _ _).
    vm_compute. reflexivity.
Defined.

(** ** The text written to [main.py] (lines 103-108) *)

Lemma app_empty_r s : s ++ "" = s.
Proof.
  induction s as [|c s IH]; first done.
  change (String c (s ++ "") = String c s). by rewrite IH.
Qed.

(** X8. Whatever the script holds, the text that is written to [main.py]
    contains ["def main()"]: the script had it, or the wrapper provides
    it. *)
Theorem written_main_defines_main (content : string) :
  PyStr.contains "def main()"
    (if negb (PyStr.contains "def main()" content)
     then wrap_main content else content) = true.
Proof.
  destruct (PyStr.contains "def main()" content) eqn:E; first done.
  cbn [negb]. unfold wrap_main.
  generalize (PyStr.join PyStr.nl
                (map (fun line => "    " ++ line) (PyStr.splitlines content))).
  intros body. reflexivity.
Qed.

(** ** Names once more (lines 16-22) *)

Lemma map_chars_id_iff s :
  map_chars underscore s = s <-> PyStr.contains "-" s = false.
Proof.
  induction s as [|c s IH]; first done.
  cbn [map_chars PyStr.contains String.prefix].
  unfold underscore at 1.
  destruct (ascii_dec "-" c) as [<-|Hne].
  - rewrite prefix_empty. cbn. split; discriminate.
  - destruct (Ascii.eqb_spec c "-") as [->|_]; first done.
    cbn [orb]. rewrite <- IH. split; [by intros [= ?] | by intros ->].
Qed.

(** X9. The package name and the command name of a script coincide exactly
    when the file name's stem has no hyphen. *)
Theorem names_coincide_iff_no_hyphen (script_path : PurePath) :
  get_pkg_name script_path = get_bin_name script_path
  <-> PyStr.contains "-" (stem script_path) = false.
Proof.
  unfold get_pkg_name, get_bin_name. rewrite replace_hyphen.
  apply map_chars_id_iff.
Qed.

(** ** What a run leaves alone *)

Lemma foreign_ne u x c :
  foreign u = true -> In c written_names -> u <> (x ++ [c])%list.
Proof.
  intros Hf Hin ->. unfold foreign in Hf. rewrite last_last in Hf.
  apply negb_true_iff in Hf.
  assert (existsb (String.eqb c) written_names = true) as E; last congruence.
  apply existsb_exists. exists c. split; first done. apply String.eqb_refl.
Qed.

Section Foreign.

Variable host : Host.
Variable u : fspath.

Hypothesis Hforeign : foreign u = true.

Lemma foreign_join p c :
  simple_part c -> In c written_names -> abspath host (p // c) <> u.
Proof.
  intros Hc Hin E. rewrite abspath_join in E by done.
  by eapply foreign_ne.
Qed.

(** A step guarded by [if not p.exists()] keeps what exists at any path:
    at [p] itself the guard skips the step. *)
Lemma keeps_unless_present p (m : M unit) :
  (abspath host p <> u -> keeps u m) ->
  keeps u (bind (path_exists host p)
             (fun present => if negb present then m else ret tt)).
Proof.
  intros Hm w n Hn. unfold bind, path_exists.
  destruct (decide (abspath host p = u)) as [E|Hne].
  - rewrite bool_decide_eq_true_2; first done.
    rewrite E. destruct u; [by eexists | by exists n].
  - destruct (bool_decide _); cbn [negb]; [done | by apply Hm].
Qed.

Lemma fkeeps_setup_src script_path pkg_dir pkg_name :
  keeps u (setup_src host script_path pkg_dir pkg_name).
Proof.
  unfold setup_src. apply keeps_bind; first apply keeps_mkdir_parents.
  intros _. apply keeps_unless_present. intros Hne.
  apply keeps_bind; first apply keeps_read_text.
  intros content. by apply keeps_write_text.
Qed.

Lemma fkeeps_handle_readme script_path pkg_dir bin_name :
  keeps u (handle_readme host script_path pkg_dir bin_name).
Proof.
  unfold handle_readme. apply keeps_bind.
  { apply keeps_unlink.
    apply foreign_join; [apply simple_readme_md | cbn; tauto]. }
  intros _. apply keeps_unless_present. intros Hne.
  by apply keeps_write_text.
Qed.

Lemma fkeeps_rewrite_manifest p edit :
  abspath host p <> u -> keeps u (rewrite_manifest host p edit).
Proof.
  intros Hne w n Hn.
  destruct (rewrite_manifest host p edit w) as [[[]|e] w'] eqn:E; cbn.
  - apply rewrite_manifest_ok in E as (d & d' & _ & _ & _ & ->).
    unfold written. cbn [fs]. by rewrite lookup_insert_ne.
  - by apply rewrite_manifest_raise in E as ->.
Qed.

Lemma fkeeps_update_local_pyproject pkg_dir pkg_name bin_name :
  keeps u (update_local_pyproject host pkg_dir pkg_name bin_name).
Proof.
  rewrite update_local_pyproject_shape. apply fkeeps_rewrite_manifest.
  apply foreign_join; [apply simple_pyproject | cbn; tauto].
Qed.

Hypothesis Htool : tool_keeps host u.

Lemma fkeeps_create_package pkg_dir : keeps u (create_package host pkg_dir).
Proof.
  unfold create_package. apply keeps_bind; first apply keeps_path_exists.
  intros b. apply keeps_if; [by apply keeps_subprocess_run | apply keeps_ret].
Qed.

Lemma fkeeps_git_setup pkg_dir : keeps u (git_setup host pkg_dir).
Proof.
  unfold git_setup. apply keeps_bind.
  - unfold git_init_repo. apply keeps_bind; first apply keeps_path_exists.
    intros b.
    apply keeps_if; [by apply keeps_subprocess_run | apply keeps_ret].
  - intros _ w n Hn. by rewrite initial_commit_spec.
Qed.

Lemma keeps_bind_val {A B} (m : M A) (f : A -> M B) (Q : A -> Prop) :
  keeps u m ->
  (forall w a w', m w = (Ok a, w') -> Q a) ->
  (forall a, Q a -> keeps u (f a)) ->
  keeps u (bind m f).
Proof.
  intros Hm HQ Hf w n Hn. specialize (Hm w n Hn). unfold bind.
  destruct (m w) as [[a|e] w1] eqn:E; cbn in *; last done.
  apply Hf; [by eapply HQ | done].
Qed.

Lemma fkeeps_setup_umbrella path : keeps u (setup_umbrella host path).
Proof.
  unfold setup_umbrella. apply keeps_bind; first apply keeps_path_exists.
  intros b. apply keeps_bind; last by (intros; apply keeps_ret).
  apply keeps_if; last apply keeps_ret.
  apply keeps_bind; first apply keeps_echo.
  intros _. by apply keeps_subprocess_run.
Qed.

Lemma fkeeps_register_umbrella register giturl_pattern pkg_name bin_name :
  keeps u (register_umbrella host register giturl_pattern pkg_name bin_name).
Proof.
  unfold register_umbrella. destruct (truthy register) as [path|];
    last apply keeps_ret.
  apply (keeps_bind_val _ _ (fun pp => pp = Path path // "pyproject.toml")).
  - apply fkeeps_setup_umbrella.
  - intros w pp w' H. by eapply setup_umbrella_value.
  - intros pp ->. apply keeps_bind; first apply keeps_lift.
    intros git_url. rewrite update_umbrella_deps_bin_shape.
    apply fkeeps_rewrite_manifest.
    apply foreign_join; [apply simple_pyproject | cbn; tauto].
Qed.

Lemma fkeeps_migrate_one register giturl_pattern script :
  keeps u (migrate_one host register giturl_pattern script).
Proof.
  unfold migrate_one.
  apply keeps_bind; first apply keeps_echo. intros _.
  apply keeps_bind; first apply fkeeps_create_package. intros _.
  apply keeps_bind; first apply fkeeps_setup_src. intros _.
  apply keeps_bind; first apply fkeeps_handle_readme. intros _.
  apply keeps_bind; first apply fkeeps_update_local_pyproject. intros _.
  apply keeps_bind; first apply fkeeps_git_setup. intros _.
  apply fkeeps_register_umbrella.
Qed.

Lemma fkeeps_migrate scripts register giturl_pattern :
  keeps u (migrate host scripts register giturl_pattern).
Proof.
  unfold migrate. induction scripts as [|s l IH]; cbn [for_each].
  - apply keeps_ret.
  - apply keeps_bind; [apply fkeeps_migrate_one | by intros].
Qed.

(** X10. A run replaces or removes nothing but files named [README.md]
    or [pyproject.toml]: what it finds at any other path, an existing
    [main.py] or [README.org] included, is still there, as it was, when the
    run ends or fails, as long as the external tools leave it alone.  An
    input script is such a path unless it bears one of these two names. *)
Theorem foreign_files_untouched scripts register giturl_pattern w n :
  fs w !! u = Some n ->
  fs (migrate host scripts register giturl_pattern w).2 !! u = Some n.
Proof. apply fkeeps_migrate. Qed.

End Foreign.

Lemma foreign_files_untouched_witness :
  let host := Demo.vcs_host in
  let script := ["work"; "hello-world.py"] in
  fs (migrate host ["hello-world.py"; "say_bye.py"] (Some "tools")
        default_giturl_pattern Demo.start).2 !! script
  = Some (File (Text "print('hi')")).
Proof.
  intros host script.
  refine (foreign_files_untouched host script _ _
            ["hello-world.py"; "say_bye.py"] (Some "tools")
            default_giturl_pattern Demo.start (File (Text "print('hi')")) _).
  - vm_compute. reflexivity.
  - apply demo_tool_keeps.
  - vm_compute. reflexivity.
Defined.

(** ** Running again on a migrated package *)

Section Rerun.

Variable host : Host.

Lemma tool_free_at_bind {A B} w (m : M A) (f : A -> M B) :
  tool_free_at w m ->
  (forall a w1, m w = (Ok a, w1) -> tool_free_at w1 (f a)) ->
  tool_free_at w (bind m f).
Proof.
  intros (t1 & Hl1 & Ht1) Hf. unfold tool_free_at, bind.
  destruct (m w) as [[a|e] w1] eqn:E; cbn in *; last by exists t1.
  destruct (Hf a w1 eq_refl) as (t2 & Hl2 & Ht2).
  exists (t2 ++ t1)%list. split.
  - by rewrite Hl2, Hl1, app_assoc.
  - by apply Forall_app.
Qed.

Lemma tool_free_bind {A B} (m : M A) (f : A -> M B) :
  tool_free m -> (forall a, tool_free (f a)) -> tool_free (bind m f).
Proof. intros Hm Hf w. apply tool_free_at_bind; [apply Hm | intros; apply Hf]. Qed.

Lemma tool_free_if {A} (b : bool) (m1 m2 : M A) :
  tool_free m1 -> tool_free m2 -> tool_free (if b then m1 else m2).
Proof. by destruct b. Qed.

Lemma tool_free_at_skip {A} w (m : M A) r :
  m w = (r, w) -> tool_free_at w m.
Proof. intros E. exists []. by rewrite E. Qed.

Lemma tool_free_ret {A} (a : A) : tool_free (ret a).
Proof. intros w. by exists []. Qed.

Lemma tool_free_lift {A} (r : result A) : tool_free (lift r).
Proof. intros w. by exists []. Qed.

Lemma tool_free_echo s : tool_free (echo s).
Proof. intros w. exists [EEcho s]. split; [done | by repeat constructor]. Qed.

Lemma tool_free_path_exists p : tool_free (path_exists host p).
Proof. intros w. by exists []. Qed.

Lemma tool_free_mkdirs made todo : tool_free (mkdirs made todo).
Proof.
  revert made. induction todo as [|c rest IH]; intros made.
  - apply tool_free_ret.
  - cbn [mkdirs]. apply tool_free_bind; last by (intros; apply IH).
    intros w. unfold tool_free_at.
    destruct (lookup_node (fs w) (made ++ [c])%list) as [[|c0]|]; cbn.
    + by exists [].
    + destruct rest; by exists [].
    + exists [EMkdir (made ++ [c])%list].
      split; [done | by repeat constructor].
Qed.

Lemma tool_free_open p md : tool_free (open_ host p md).
Proof.
  intros w. unfold tool_free_at, open_. destruct md.
  - destruct (lookup_node _ _) as [[|?]|]; by exists [].
  - destruct (lookup_node (fs w) (abspath host p)) as [[|?]|];
      try (by exists []);
      destruct (lookup_node (fs w) (parent _)) as [[|?]|];
      try (by exists []);
      (exists [ETruncate (abspath host p)];
       split; [done | by repeat constructor]).
Qed.

Lemma tool_free_fwrite f c : tool_free (fwrite f c).
Proof.
  intros w. unfold tool_free_at, fwrite. destruct (h_mode f).
  - by exists [].
  - exists [EWrite (h_path f) c]. split; [done | by repeat constructor].
Qed.

Lemma tool_free_fread f : tool_free (fread host f).
Proof.
  intros w. unfold tool_free_at, fread.
  destruct (fs w !! h_path f) as [[|[?|?]]|]; by exists [].
Qed.

Lemma tool_free_tomlkit_load f : tool_free (tomlkit_load host f).
Proof.
  intros w. unfold tool_free_at, tomlkit_load.
  destruct (fs w !! h_path f) as [[|[s|?]]|]; try (by exists []).
  destruct (toml_loads host s); by exists [].
Qed.

Lemma tool_free_unlink p : tool_free (unlink_missing_ok host p).
Proof.
  intros w. unfold tool_free_at, unlink_missing_ok.
  destruct (lookup_node _ _) as [[|?]|]; try (by exists []).
  exists [EUnlink (abspath host p)]. split; [done | by repeat constructor].
Qed.

Lemma tool_free_rewrite_manifest p edit :
  tool_free (rewrite_manifest host p edit).
Proof.
  unfold rewrite_manifest.
  apply tool_free_bind; first apply tool_free_open. intros f.
  apply tool_free_bind; first apply tool_free_tomlkit_load. intros data.
  apply tool_free_bind; first apply tool_free_lift. intros data'.
  apply tool_free_bind; first apply tool_free_open. intros f'.
  apply tool_free_fwrite.
Qed.

Lemma tool_free_setup_src script_path pkg_dir pkg_name :
  tool_free (setup_src host script_path pkg_dir pkg_name).
Proof.
  unfold setup_src, mkdir_parents, read_text, write_text.
  apply tool_free_bind; first apply tool_free_mkdirs. intros _.
  apply tool_free_bind; first apply tool_free_path_exists. intros b.
  apply tool_free_if; last apply tool_free_ret.
  apply tool_free_bind.
  { apply tool_free_bind; first apply tool_free_open.
    intros f. apply tool_free_fread. }
  intros content.
  apply tool_free_bind; first apply tool_free_open.
  intros f. apply tool_free_fwrite.
Qed.

Lemma tool_free_handle_readme script_path pkg_dir bin_name :
  tool_free (handle_readme host script_path pkg_dir bin_name).
Proof.
  unfold handle_readme, write_text.
  apply tool_free_bind; first apply tool_free_unlink. intros _.
  apply tool_free_bind; first apply tool_free_path_exists. intros b.
  apply tool_free_if; last apply tool_free_ret.
  apply tool_free_bind; first apply tool_free_open.
  intros f. apply tool_free_fwrite.
Qed.

Lemma create_package_skip pkg_dir w :
  is_Some (lookup_node (fs w) (abspath host pkg_dir)) ->
  create_package host pkg_dir w = (Ok tt, w).
Proof.
  intros H. unfold create_package, bind, path_exists.
  by rewrite bool_decide_eq_true_2.
Qed.

Lemma git_setup_skip pkg_dir w :
  is_Some (fs w !! abspath host (pkg_dir // ".git")) ->
  is_Some (fs w !! abspath host (pkg_dir // ".gitignore")) ->
  git_setup host pkg_dir w = (Ok tt, w).
Proof.
  intros Hg [n Hi]. unfold git_setup. erewrite bind_ok.
  2:{ unfold git_init_repo, bind, path_exists.
      rewrite lookup_node_nonempty
        by apply abspath_join_nonempty, simple_git.
      by rewrite bool_decide_eq_true_2. }
  rewrite initial_commit_spec.
  rewrite lookup_node_nonempty
    by apply abspath_join_nonempty, simple_gitignore.
  by rewrite Hi.
Qed.

Lemma setup_umbrella_skip path w :
  is_Some (lookup_node (fs w) (abspath host (Path path))) ->
  setup_umbrella host path w = (Ok (Path path // "pyproject.toml"), w).
Proof.
  intros H. unfold setup_umbrella, bind, path_exists.
  by rewrite bool_decide_eq_true_2.
Qed.

Lemma keeps_some {A} u (m : M A) w a w' :
  keeps u m -> m w = (Ok a, w') ->
  is_Some (fs w !! u) -> is_Some (fs w' !! u).
Proof.
  intros Hk Hm [n Hn]. specialize (Hk w n Hn). rewrite Hm in Hk. eauto.
Qed.

Lemma foreign_git p : foreign (abspath host (p // ".git")) = true.
Proof.
  rewrite abspath_join by apply simple_git. unfold foreign.
  by rewrite last_last.
Qed.

Lemma foreign_gitignore p : foreign (abspath host (p // ".gitignore")) = true.
Proof.
  rewrite abspath_join by apply simple_gitignore. unfold foreign.
  by rewrite last_last.
Qed.

(** The steps between [uv init] and [git init] keep what they find at a
    foreign path. *)
Lemma scaffold_keeps_some u script_path pkg_dir pkg_name bin_name w3 w4 w5 w6 :
  foreign u = true ->
  setup_src host script_path pkg_dir pkg_name w3 = (Ok tt, w4) ->
  handle_readme host script_path pkg_dir bin_name w4 = (Ok tt, w5) ->
  update_local_pyproject host pkg_dir pkg_name bin_name w5 = (Ok tt, w6) ->
  is_Some (fs w3 !! u) -> is_Some (fs w6 !! u).
Proof.
  intros Hf H3 H4 H5 H.
  eapply keeps_some in H3; [|by apply fkeeps_setup_src|exact H].
  eapply keeps_some in H4; [|by apply fkeeps_handle_readme|exact H3].
  eapply keeps_some in H5; [|by apply fkeeps_update_local_pyproject|exact H4].
  done.
Qed.

(** X11. Running an iteration again on a migrated package invokes no
    external tool: with the package directory, its [.git] and its
    [.gitignore] in place (and, with [--register], the umbrella directory),
    none of the events of the iteration is a tool invocation, whether the
    iteration succeeds or not. *)
Theorem rerun_runs_no_tool register giturl_pattern script w :
  let pkg_dir := Path_cwd host // get_bin_name (Path script) in
  is_Some (lookup_node (fs w) (abspath host pkg_dir)) ->
  is_Some (fs w !! abspath host (pkg_dir // ".git")) ->
  is_Some (fs w !! abspath host (pkg_dir // ".gitignore")) ->
  (forall path, truthy register = Some path ->
     foreign (abspath host (Path path)) = true /\
     is_Some (fs w !! abspath host (Path path))) ->
  Forall not_run
    (new_events w (migrate_one host register giturl_pattern script w).2).
Proof.
  intros pkg_dir Hpkg Hgit Hignore Hreg.
  assert (tool_free_at w (migrate_one host register giturl_pattern script))
    as (t & Hl & Ht); last by rewrite (new_events_app _ _ _ Hl).
  unfold migrate_one. fold pkg_dir.
  apply tool_free_at_bind; first apply tool_free_echo.
  intros [] w1 [= <-].
  apply tool_free_at_bind.
  { eapply tool_free_at_skip. by apply create_package_skip. }
  intros [] w2 H2. rewrite create_package_skip in H2 by done.
  injection H2 as <-.
  apply tool_free_at_bind; first apply tool_free_setup_src.
  intros [] w3 H3.
  apply tool_free_at_bind; first apply tool_free_handle_readme.
  intros [] w4 H4.
  apply tool_free_at_bind.
  { rewrite update_local_pyproject_shape. apply tool_free_rewrite_manifest. }
  intros [] w5 H5.
  assert (forall u, foreign u = true ->
            is_Some (fs w !! u) -> is_Some (fs w5 !! u)) as Hkeep.
  { intros u Hu Hs. by eapply (scaffold_keeps_some u). }
  assert (git_setup host pkg_dir w5 = (Ok tt, w5)) as Hskip.
  { apply git_setup_skip; apply Hkeep;
      auto using foreign_git, foreign_gitignore. }
  apply tool_free_at_bind; first by eapply tool_free_at_skip.
  intros [] w6 H6. rewrite Hskip in H6. injection H6 as <-.
  unfold register_umbrella.
  destruct (truthy register) as [path|] eqn:Etr; last apply tool_free_ret.
  destruct (Hreg path eq_refl) as [Hfu Hu].
  assert (setup_umbrella host path w5
          = (Ok (Path path // "pyproject.toml"), w5)) as Hsu.
  { apply setup_umbrella_skip. destruct (Hkeep _ Hfu Hu) as [n Hn].
    destruct (abspath host (Path path)); [by eexists | by exists n]. }
  apply tool_free_at_bind; first by eapply tool_free_at_skip.
  intros pp w7 H7. rewrite Hsu in H7. injection H7 as <- <-.
  apply tool_free_bind; first apply tool_free_lift.
  intros git_url. rewrite update_umbrella_deps_bin_shape.
  apply tool_free_rewrite_manifest.
Qed.

Lemma mkdirs_ok made todo w w' :
  made = [] \/ fs w !! made = Some Dir ->
  mkdirs made todo w = (Ok tt, w') ->
  lookup_node (fs w') (made ++ todo)%list = Some Dir.
Proof.
  revert made w. induction todo as [|c rest IH]; intros made w Hm H.
  - injection H as <-. rewrite app_nil_r.
    destruct Hm as [->|Hm]; first done. by destruct made.
  - cbn [mkdirs] in H. apply bind_ok_inv in H as ([] & w1 & H1 & H).
    assert (fs w1 !! (made ++ [c])%list = Some Dir) as Hq.
    { assert ((made ++ [c])%list <> []) as Hne by by destruct made.
      rewrite (lookup_node_nonempty _ _ Hne) in H1.
      destruct (fs w !! (made ++ [c])%list) as [[|c0]|] eqn:E.
      - by injection H1 as <-.
      - by destruct rest.
      - injection H1 as <-. unfold emit, set_node. cbn.
        by rewrite lookup_insert_eq. }
    rewrite (app_assoc made [c] rest : (made ++ c :: rest = (made ++ [c]) ++ rest)%list).
    eapply IH; [by right | done].
Qed.

(** X12. After a successful [setup_src] the package has its source
    layout: [src/<pkg_name>] is a directory and [main.py] exists in it. *)
Theorem setup_src_layout script_path pkg_dir pkg_name w w' :
  let src_dir := pkg_dir // "src" // pkg_name in
  setup_src host script_path pkg_dir pkg_name w = (Ok tt, w') ->
  lookup_node (fs w') (abspath host src_dir) = Some Dir /\
  is_Some (fs w' !! abspath host (src_dir // "main.py")).
Proof.
  intros src_dir H. unfold setup_src in H. fold src_dir in H.
  assert (abspath host (src_dir // "main.py") <> [])
    as Hne by apply abspath_join_nonempty, simple_main_py.
  assert (abspath host src_dir <> abspath host (src_dir // "main.py"))
    as Hdiff.
  { rewrite abspath_join by apply simple_main_py. intros E.
    apply (f_equal length) in E. rewrite length_app in E. cbn in E. lia. }
  apply bind_ok_inv in H as ([] & w1 & H1 & H).
  apply (mkdirs_ok []) in H1; last by left. cbn [app] in H1.
  apply bind_ok_inv in H as (b & w2 & H2 & H).
  unfold path_exists in H2. injection H2 as <- <-.
  rewrite (lookup_node_nonempty _ _ Hne) in H.
  destruct (fs w1 !! abspath host (src_dir // "main.py")) as [n|] eqn:E.
  - rewrite bool_decide_eq_true_2 in H by eauto. injection H as <-.
    split; [done | by rewrite E].
  - rewrite bool_decide_eq_false_2 in H by (intros [? ?]; discriminate).
    cbn [negb] in H.
    apply bind_ok_inv in H as (content & w3 & Hr & H).
    apply read_text_inv in Hr as (-> & _).
    apply write_text_inv in H as [[_ ->]|[[e [=]] _]]. cbn [fs]. split.
    + by rewrite lookup_node_insert_ne.
    + rewrite lookup_insert_eq. eauto.
Qed.

End Rerun.

Lemma rerun_runs_no_tool_witness :
  let host := Demo.vcs_host in
  Forall not_run
    (new_events Demo.registered
       (migrate_one host (Some "tools") default_giturl_pattern
          "hello-world.py" Demo.registered).2).
Proof.
  intros host.
  refine (rerun_runs_no_tool host (Some "tools") default_giturl_pattern
            "hello-world.py" Demo.registered _ _ _ _).
  - vm_compute. eauto.
  - vm_compute. eauto.
  - vm_compute. eauto.
  - intros path [= <-]. split; vm_compute; eauto.
Defined.

Lemma setup_src_layout_witness :
  let host := Demo.vcs_host in
  let pkg_dir := Path_cwd host // "hello-world" in
  let src_dir := pkg_dir // "src" // "hello_world" in
  let w' := (setup_src host (Path "hello-world.py") pkg_dir "hello_world"
               Demo.scaffolded).2 in
  lookup_node (fs w') (abspath host src_dir) = Some Dir /\
  is_Some (fs w' !! abspath host (src_dir // "main.py")).
Proof.
  intros host pkg_dir src_dir w'.
  refine (setup_src_layout host (Path "hello-world.py") pkg_dir "hello_world"
            Demo.scaffolded w' _).
  refine (run_ok_eq (setup_src host (Path "hello-world.py") pkg_dir
                       "hello_world") Demo.scaffolded tt _).
  vm_compute. reflexivity.
Defined.
